(** * Centurion: a shallow embedding of the SDL wrapper classes

    The wrapper classes of Centurion ([music], [thread], [basic_haptic],
    [clipboard], [MouseButtonEvent], [CenturionException]) forward to the
    native SDL2 / SDL2_mixer C API.  The native library is not part of the
    repository, so it is modelled as an arbitrary deterministic machine: a
    state type with one transition function that answers every native call.
    A wrapper operation is a computation in a small monad that threads the
    library state, logs the native calls it makes, and may end by a normal
    return, by a C++ exception or by a failed [assert]. *)

From Stdlib Require Import ZArith List String Ascii Bool Lia.
Import ListNotations.
Open Scope Z_scope.

(** ** Native values *)

(** A native pointer or opaque handle ([Mix_Music*], [SDL_Thread*],
    [SDL_Haptic*], [void*], a function pointer).  [nullptr] is [0]. *)
Definition ptr := Z.
Definition nullptr : ptr := 0.

(** [!p] on a pointer. *)
Definition is_null (p : ptr) : bool := p =? nullptr.

(** The native calls made by the embedded wrappers, with their arguments. *)
Inductive call : Type :=
| Mix_LoadMUS (file : string)
| Mix_PlayMusic (music : ptr) (loops : Z)
| Mix_ResumeMusic
| Mix_PauseMusic
| Mix_HaltMusic
| Mix_FadeInMusic (music : ptr) (loops : Z) (ms : Z)
| Mix_FadeOutMusic (ms : Z)
| Mix_VolumeMusic (volume : Z)
| Mix_PlayingMusic
| Mix_PausedMusic
| Mix_FadingMusic
| Mix_GetMusicType (music : ptr)
| SDL_CreateThread (fn : ptr) (name : string) (data : ptr)
| SDL_WaitThread (thread : ptr)
| SDL_DetachThread (thread : ptr)
| SDL_SetThreadPriority (priority : Z)
| SDL_GetThreadID (thread : ptr)
| SDL_HapticOpen (device_index : Z)
| SDL_HapticOpenFromMouse
| SDL_HapticClose (haptic : ptr)
| SDL_HapticIndex (haptic : ptr)
| SDL_HapticRumbleInit (haptic : ptr)
| SDL_HapticRumbleStop (haptic : ptr)
| SDL_HapticNumEffects (haptic : ptr)
| SDL_HapticNumEffectsPlaying (haptic : ptr)
| SDL_HapticNumAxes (haptic : ptr)
| SDL_HapticQuery (haptic : ptr)
| SDL_HasClipboardText
| SDL_SetClipboardText (text : string)
| IMG_LoadTexture (renderer : ptr) (file : option string)
| SDL_CreateTextureFromSurface (renderer : ptr) (surface : ptr).

(** The native library: any state type with a transition function that
    gives, for a call in a state, the value the call returns (an [int], an
    [unsigned], a pointer; for [SDL_WaitThread] the status written through
    its out-parameter; for a [void] function a value nobody reads) and the
    next state. *)
Class Library (L : Type) : Type := { sdl : call -> L -> Z * L }.

(** ** Exceptions and outcomes *)

(** The exception classes thrown by the embedded code.  [sdl_error{}] is
    default-constructed at every throw site of the embedded code;
    [centurion_exception] is a [CenturionException{what}], and
    [error_from_image] and [error_from_core] are the exceptions that
    [detail::Error::from_image(what)] and [detail::Error::from_core(what)]
    build. *)
Inductive exn : Type :=
| mix_error (what : string)
| sdl_error
| exception (what : string)
| centurion_exception (what : string)
| error_from_image (what : string)
| error_from_core (what : string).

Inductive outcome (A : Type) : Type :=
| Ret (a : A)
| Throw (e : exn)
| AssertFailed.
Arguments Ret {A} a.
Arguments Throw {A} e.
Arguments AssertFailed {A}.

Definition is_throw {A} (o : outcome A) : bool :=
  match o with Throw _ => true | _ => false end.

Definition is_ret {A} (o : outcome A) : bool :=
  match o with Ret _ => true | _ => false end.

(** ** The wrapper monad *)

(** A computation maps the library state to its outcome, the next library
    state, and the native calls it made, oldest first. *)
Definition M (L A : Type) : Type := L -> outcome A * L * list call.

Definition ret {L A} (a : A) : M L A := fun l => (Ret a, l, []).

Definition throw {L A} (e : exn) : M L A := fun l => (Throw e, l, []).

Definition bind {L A B} (m : M L A) (f : A -> M L B) : M L B := fun l =>
  match m l with
  | (Ret a, l1, t1) => let '(o, l2, t2) := f a l1 in (o, l2, t1 ++ t2)
  | (Throw e, l1, t1) => (Throw e, l1, t1)
  | (AssertFailed, l1, t1) => (AssertFailed, l1, t1)
  end.

Declare Scope wrapper_scope.
Delimit Scope wrapper_scope with wrapper.
Notation "x <- m ;; k" := (bind m (fun x => k))
  (at level 61, m at next level, right associativity) : wrapper_scope.
Notation "m ;;; k" := (bind m (fun _ => k))
  (at level 61, right associativity) : wrapper_scope.
Open Scope wrapper_scope.

(** One native call. *)
Definition native {L} `{Library L} (c : call) : M L Z := fun l =>
  let '(r, l') := sdl c l in (Ret r, l', [c]).

(** [assert(b)] of <cassert>, in a build where assertions are enabled. *)
Definition assert {L} (b : bool) : M L unit := fun l =>
  if b then (Ret tt, l, []) else (AssertFailed, l, []).

(** Projections of a run. *)
Definition result_of {L A} (r : outcome A * L * list call) : outcome A :=
  fst (fst r).
Definition state_of {L A} (r : outcome A * L * list call) : L :=
  snd (fst r).
Definition calls_of {L A} (r : outcome A * L * list call) : list call :=
  snd r.

(** What a native call returns in a given library state. *)
Definition returned {L} `{Library L} (c : call) (l : L) : Z := fst (sdl c l).

(** How many calls of a log pass a test, and the tests used below. *)
Definition count_calls (p : call -> bool) (t : list call) : nat :=
  List.length (filter p t).




(** ** Constants of the native headers *)

(** The values of the SDL2 and SDL2_mixer macros and enumerators that the
    wrapper sources name.  The headers are not part of the repository, so
    the embedding is parametric in them. *)
Class NativeHeader : Type := {
  MIX_MAX_VOLUME : Z;
  MIX_NO_FADING : Z;
  MIX_FADING_OUT : Z;
  MIX_FADING_IN : Z;
  SDL_THREAD_PRIORITY_LOW : Z;
  SDL_THREAD_PRIORITY_NORMAL : Z;
  SDL_THREAD_PRIORITY_HIGH : Z;
  SDL_THREAD_PRIORITY_TIME_CRITICAL : Z;
  SDL_MOUSEWHEEL_NORMAL : Z;
  SDL_MOUSEWHEEL_FLIPPED : Z;
  SDL_HAPTIC_CONSTANT : Z;
  SDL_HAPTIC_SINE : Z;
  SDL_HAPTIC_LEFTRIGHT : Z;
  SDL_HAPTIC_TRIANGLE : Z;
  SDL_HAPTIC_SAWTOOTHUP : Z;
  SDL_HAPTIC_SAWTOOTHDOWN : Z;
  SDL_HAPTIC_RAMP : Z;
  SDL_HAPTIC_SPRING : Z;
  SDL_HAPTIC_DAMPER : Z;
  SDL_HAPTIC_INERTIA : Z;
  SDL_HAPTIC_FRICTION : Z;
  SDL_HAPTIC_CUSTOM : Z;
  SDL_HAPTIC_GAIN : Z;
  SDL_HAPTIC_AUTOCENTER : Z;
  SDL_HAPTIC_STATUS : Z;
  SDL_HAPTIC_PAUSE : Z
}.

(** ** Fixed-width conversions *)

(** [static_cast<u8>(v)] and [static_cast<unsigned>(v)]. *)
Definition to_u8 (v : Z) : Z := v mod 2 ^ 8.
Definition to_unsigned (v : Z) : Z := v mod 2 ^ 32.

(** Conversion of an [int] to [bool]. *)
Definition int_to_bool (v : Z) : bool := negb (v =? 0).

(** [std::clamp(v, lo, hi)] of <algorithm>. *)
Definition clamp (v lo hi : Z) : Z :=
  if v <? lo then lo else if hi <? v then hi else v.

(** ** [centurion::music] (src/audio/music.cpp) *)

Module Music.
Section WithLibrary.
Context {L : Type} `{Library L} `{NativeHeader}.

(** [m_music] is a [std::unique_ptr<Mix_Music, deleter>]. *)
Record music : Type := { m_music : ptr }.

(** [fade_status] is a scoped enum over the native fade constants
    (test/unittests/music_test.cpp checks [none == MIX_NO_FADING],
    [in == MIX_FADING_IN], [out == MIX_FADING_OUT]); a value of the enum
    is its underlying [int]. *)
Definition fade_status := Z.
Definition fade_status_none : fade_status := MIX_NO_FADING.
Definition fade_status_in : fade_status := MIX_FADING_IN.
Definition fade_status_out : fade_status := MIX_FADING_OUT.

(** [music::music(nn_czstring file)] *)
Definition ctor (file : string) : M L music :=
  p <- native (Mix_LoadMUS file) ;;
  if is_null p then throw (mix_error "Failed to load music from file!")
  else ret {| m_music := p |}.

(** [music::play(int nLoops)] *)
Definition play (self : music) (nLoops : Z) : M L unit :=
  let nLoops := if nLoops <? -1 then -1 else nLoops in
  native (Mix_PlayMusic (m_music self) nLoops) ;;;
  ret tt.

Definition pause : M L unit := native Mix_PauseMusic ;;; ret tt.

(** [music::fade_in(milliseconds<int> ms, int nLoops)] *)
Definition fade_in (self : music) (ms nLoops : Z) : M L unit :=
  let ms := if ms <? 0 then 0 else ms in
  let nLoops := if nLoops <? -1 then -1 else nLoops in
  native (Mix_FadeInMusic (m_music self) nLoops ms) ;;;
  ret tt.

(** [music::get_fade_status()] *)
Definition get_fade_status : M L fade_status :=
  native Mix_FadingMusic.

(** [music::is_fading()] *)
Definition is_fading : M L bool :=
  status <- get_fade_status ;;
  ret ((status =? fade_status_in) || (status =? fade_status_out))%bool.

(** [music::fade_out(milliseconds<int> ms)] *)
Definition fade_out (ms : Z) : M L unit :=
  fading <- is_fading ;;
  if fading then ret tt
  else
    let ms := if ms <? 0 then 0 else ms in
    native (Mix_FadeOutMusic ms) ;;;
    ret tt.

(** [music::set_volume(int volume)] *)
Definition set_volume (volume : Z) : M L unit :=
  native (Mix_VolumeMusic (clamp volume 0 MIX_MAX_VOLUME)) ;;;
  ret tt.

(** [music::is_playing()], [music::is_paused()] *)
Definition is_playing : M L bool :=
  r <- native Mix_PlayingMusic ;; ret (int_to_bool r).
Definition is_paused : M L bool :=
  r <- native Mix_PausedMusic ;; ret (int_to_bool r).

(** [music::volume()] *)
Definition volume : M L Z := native (Mix_VolumeMusic (-1)).

(** [music::type()]; a [music_type] is its underlying [int]. *)
Definition type (self : music) : M L Z :=
  native (Mix_GetMusicType (m_music self)).

End WithLibrary.
End Music.

(** ** [cen::result] and [cen::thread] (core/result.hpp, thread.hpp) *)

Module Thread.
Section WithLibrary.
Context {L : Type} `{Library L} `{NativeHeader}.

(** [class Result]: one [bool], [success] and [failure]. *)
Record result : Type := { mSuccess : bool }.
Definition success : result := {| mSuccess := true |}.
Definition failure : result := {| mSuccess := false |}.

(** [enum class thread_priority] *)
Inductive thread_priority : Type := low | normal | high | critical.

(** [to_underlying], the enumerator initialisers of [thread_priority]. *)
Definition to_underlying (p : thread_priority) : Z :=
  match p with
  | low => SDL_THREAD_PRIORITY_LOW
  | normal => SDL_THREAD_PRIORITY_NORMAL
  | high => SDL_THREAD_PRIORITY_HIGH
  | critical => SDL_THREAD_PRIORITY_TIME_CRITICAL
  end.

(** [operator==(thread_priority, SDL_ThreadPriority)] and its mirror. *)
Definition priority_eq (lhs : thread_priority) (rhs : Z) : bool :=
  to_underlying lhs =? rhs.
Definition priority_eq_native (lhs : Z) (rhs : thread_priority) : bool :=
  priority_eq rhs lhs.

Record thread : Type := {
  m_thread : ptr;
  m_joined : bool;
  m_detached : bool
}.

(** [thread::thread(task_type task, not_null<czstring> name, void* data)] *)
Definition ctor (task : ptr) (name : string) (data : ptr) : M L thread :=
  p <- native (SDL_CreateThread task name data) ;;
  if is_null p then throw sdl_error
  else ret {| m_thread := p; m_joined := false; m_detached := false |}.

(** [thread::set_priority(thread_priority priority)] *)
Definition set_priority (priority : thread_priority) : M L result :=
  let prio := to_underlying priority in
  r <- native (SDL_SetThreadPriority prio) ;;
  ret {| mSuccess := r =? 0 |}.

(** [thread::joinable()], [was_joined()], [was_detached()], [get()] *)
Definition joinable (self : thread) : bool :=
  (negb (m_joined self) && negb (m_detached self))%bool.
Definition was_joined (self : thread) : bool := m_joined self.
Definition was_detached (self : thread) : bool := m_detached self.
Definition get (self : thread) : ptr := m_thread self.

(** [thread::detach()]; the object after the call is returned. *)
Definition detach (self : thread) : M L thread :=
  if (m_joined self || m_detached self)%bool then ret self
  else
    native (SDL_DetachThread (m_thread self)) ;;;
    let self := {| m_thread := m_thread self;
                   m_joined := m_joined self;
                   m_detached := true |} in
    assert (negb (Bool.eqb (m_detached self) (m_joined self))) ;;;
    ret self.

(** [thread::join()]; the status and the object after the call. *)
Definition join (self : thread) : M L (Z * thread) :=
  if (m_joined self || m_detached self)%bool then ret (0, self)
  else
    status <- native (SDL_WaitThread (m_thread self)) ;;
    let self := {| m_thread := m_thread self;
                   m_joined := true;
                   m_detached := m_detached self |} in
    assert (negb (Bool.eqb (m_detached self) (m_joined self))) ;;;
    ret (status, self).

(** [thread::~thread()] *)
Definition dtor (self : thread) : M L unit :=
  if joinable self then join self ;;; ret tt
  else ret tt.

(** [thread::get_id()] *)
Definition get_id (self : thread) : M L Z :=
  native (SDL_GetThreadID (m_thread self)).

(** A sequence of [join()] / [detach()] calls on one thread object. *)
Inductive op : Type := Join | Detach.

Definition step (o : op) (self : thread) : M L thread :=
  match o with
  | Join => r <- join self ;; ret (snd r)
  | Detach => detach self
  end.

Fixpoint run (ops : list op) (self : thread) : M L thread :=
  match ops with
  | [] => ret self
  | o :: ops => self <- step o self ;; run ops self
  end.

End WithLibrary.
End Thread.


(** ** [cen::mouse_wheel_direction] (events/mouse_wheel_direction.hpp) *)

Module MouseWheel.
Section WithHeader.
Context `{NativeHeader}.

(** [enum class mouse_wheel_direction] *)
Inductive mouse_wheel_direction : Type := normal | flipped.

Definition to_underlying (d : mouse_wheel_direction) : Z :=
  match d with
  | normal => SDL_MOUSEWHEEL_NORMAL
  | flipped => SDL_MOUSEWHEEL_FLIPPED
  end.

(** [operator==(mouse_wheel_direction, SDL_MouseWheelDirection)]: the
    native value is cast to the enum and the two enum values compared. *)
Definition direction_eq (lhs : mouse_wheel_direction) (rhs : Z) : bool :=
  to_underlying lhs =? rhs.

End WithHeader.
End MouseWheel.

(** ** [cen::basic_haptic<B>] (haptic.hpp) *)

Module Haptic.
Section WithLibrary.
Context {L : Type} `{Library L} `{NativeHeader}.

(** [enum class haptic_feature] *)
Inductive haptic_feature : Type :=
| constant | sine | left_right | triangle | sawtooth_up | sawtooth_down
| ramp | spring | damper | inertia | friction | custom | gain | autocenter
| status | pause.

Definition to_underlying (f : haptic_feature) : Z :=
  match f with
  | constant => SDL_HAPTIC_CONSTANT
  | sine => SDL_HAPTIC_SINE
  | left_right => SDL_HAPTIC_LEFTRIGHT
  | triangle => SDL_HAPTIC_TRIANGLE
  | sawtooth_up => SDL_HAPTIC_SAWTOOTHUP
  | sawtooth_down => SDL_HAPTIC_SAWTOOTHDOWN
  | ramp => SDL_HAPTIC_RAMP
  | spring => SDL_HAPTIC_SPRING
  | damper => SDL_HAPTIC_DAMPER
  | inertia => SDL_HAPTIC_INERTIA
  | friction => SDL_HAPTIC_FRICTION
  | custom => SDL_HAPTIC_CUSTOM
  | gain => SDL_HAPTIC_GAIN
  | autocenter => SDL_HAPTIC_AUTOCENTER
  | status => SDL_HAPTIC_STATUS
  | pause => SDL_HAPTIC_PAUSE
  end.

(** The object holds one [detail::pointer_manager<B, SDL_Haptic, deleter>].
    The template argument [B] is passed as a [bool] to the members whose
    code depends on it: [true] for [haptic], [false] for [haptic_handle]. *)
Record basic_haptic : Type := { m_haptic : ptr }.

(** [basic_haptic(SDL_Haptic* haptic) noexcept(!B::value)] *)
Definition from_pointer (B : bool) (haptic : ptr) : M L basic_haptic :=
  if B then
    if is_null haptic then throw (exception "Null haptic pointer!")
    else ret {| m_haptic := haptic |}
  else ret {| m_haptic := haptic |}.

(** [basic_haptic(const int index = 0)], owning instances only. *)
Definition ctor (index : Z) : M L basic_haptic :=
  p <- native (SDL_HapticOpen index) ;;
  if is_null p then throw sdl_error
  else ret {| m_haptic := p |}.

(** [basic_haptic::from_mouse()], owning instances only. *)
Definition from_mouse : M L basic_haptic :=
  p <- native SDL_HapticOpenFromMouse ;;
  if negb (is_null p) then from_pointer true p
  else throw sdl_error.

(** [init_rumble()], [stop_rumble()] *)
Definition init_rumble (self : basic_haptic) : M L bool :=
  res <- native (SDL_HapticRumbleInit (m_haptic self)) ;; ret (res =? 0).
Definition stop_rumble (self : basic_haptic) : M L bool :=
  res <- native (SDL_HapticRumbleStop (m_haptic self)) ;; ret (res =? 0).

(** The private [has_feature(const unsigned flag)] *)
Definition has_feature_flag (self : basic_haptic) (flag : Z) : M L bool :=
  q <- native (SDL_HapticQuery (m_haptic self)) ;;
  ret (int_to_bool (Z.land flag q)).

(** [has_feature(const haptic_feature feature)] *)
Definition has_feature (self : basic_haptic) (feature : haptic_feature)
  : M L bool :=
  has_feature_flag self (to_unsigned (to_underlying feature)).

(** [has_feature_constant()] ... [has_feature_custom()] *)
Definition has_feature_constant (self : basic_haptic) : M L bool :=
  has_feature_flag self SDL_HAPTIC_CONSTANT.
Definition has_feature_sine (self : basic_haptic) : M L bool :=
  has_feature_flag self SDL_HAPTIC_SINE.
Definition has_feature_left_right (self : basic_haptic) : M L bool :=
  has_feature_flag self SDL_HAPTIC_LEFTRIGHT.
Definition has_feature_triangle (self : basic_haptic) : M L bool :=
  has_feature_flag self SDL_HAPTIC_TRIANGLE.
Definition has_feature_sawtooth_up (self : basic_haptic) : M L bool :=
  has_feature_flag self SDL_HAPTIC_SAWTOOTHUP.
Definition has_feature_sawtooth_down (self : basic_haptic) : M L bool :=
  has_feature_flag self SDL_HAPTIC_SAWTOOTHDOWN.
Definition has_feature_ramp (self : basic_haptic) : M L bool :=
  has_feature_flag self SDL_HAPTIC_RAMP.
Definition has_feature_spring (self : basic_haptic) : M L bool :=
  has_feature_flag self SDL_HAPTIC_SPRING.
Definition has_feature_damper (self : basic_haptic) : M L bool :=
  has_feature_flag self SDL_HAPTIC_DAMPER.
Definition has_feature_inertia (self : basic_haptic) : M L bool :=
  has_feature_flag self SDL_HAPTIC_INERTIA.
Definition has_feature_friction (self : basic_haptic) : M L bool :=
  has_feature_flag self SDL_HAPTIC_FRICTION.
Definition has_feature_gain (self : basic_haptic) : M L bool :=
  has_feature_flag self SDL_HAPTIC_GAIN.
Definition has_feature_autocenter (self : basic_haptic) : M L bool :=
  has_feature_flag self SDL_HAPTIC_AUTOCENTER.
Definition has_feature_status (self : basic_haptic) : M L bool :=
  has_feature_flag self SDL_HAPTIC_STATUS.
Definition has_feature_pause (self : basic_haptic) : M L bool :=
  has_feature_flag self SDL_HAPTIC_PAUSE.
Definition has_feature_custom (self : basic_haptic) : M L bool :=
  has_feature_flag self SDL_HAPTIC_CUSTOM.

(** [index()]: a [std::optional<int>]. *)
Definition index (self : basic_haptic) : M L (option Z) :=
  res <- native (SDL_HapticIndex (m_haptic self)) ;;
  if negb (res =? -1) then ret (Some res) else ret None.

(** [effect_capacity()], [concurrent_capacity()], [axis_count()] *)
Definition effect_capacity (self : basic_haptic) : M L (option Z) :=
  capacity <- native (SDL_HapticNumEffects (m_haptic self)) ;;
  if negb (capacity =? -1) then ret (Some capacity) else ret None.
Definition concurrent_capacity (self : basic_haptic) : M L (option Z) :=
  capacity <- native (SDL_HapticNumEffectsPlaying (m_haptic self)) ;;
  if negb (capacity =? -1) then ret (Some capacity) else ret None.
Definition axis_count (self : basic_haptic) : M L Z :=
  native (SDL_HapticNumAxes (m_haptic self)).

(** [basic_haptic::deleter::operator()] *)
Definition deleter (haptic : ptr) : M L unit :=
  native (SDL_HapticClose haptic) ;;; ret tt.

(** Modelled from the spec: the destructor of [detail::pointer_manager]
    (detail/owner_handle_api.hpp), which is not among the sources.  The
    spec's glossary distinguishes a wrapper that destroys its underlying
    resource on destruction from one that merely observes it: with owning
    semantics the deleter is applied to the held resource (a null pointer
    holds none), with handle semantics nothing is done. *)
Definition pointer_manager_dtor (B : bool) (del : ptr -> M L unit) (p : ptr)
  : M L unit :=
  if B then (if is_null p then ret tt else del p) else ret tt.

(** The implicit [~basic_haptic()]: destroys the member [m_haptic]. *)
Definition dtor (B : bool) (self : basic_haptic) : M L unit :=
  pointer_manager_dtor B deleter (m_haptic self).

End WithLibrary.
End Haptic.

(** ** [centurion::clipboard] (clipboard.cpp) *)

Module Clipboard.
Section WithLibrary.
Context {L : Type} `{Library L}.

Definition has_text : M L bool :=
  r <- native SDL_HasClipboardText ;; ret (int_to_bool r).

(** [set_text(nn_czstring text) noexcept -> bool] *)
Definition set_text (text : string) : M L bool :=
  r <- native (SDL_SetClipboardText text) ;; ret (r =? 0).

End WithLibrary.
End Clipboard.

(** ** [centurion::event::MouseButtonEvent] (mouse_button_event.cpp) *)

(** The native [SDL_MouseButtonEvent] of SDL_events.h, field for field.
    [type], [timestamp], [windowID] and [which] are [Uint32]; [button],
    [state], [clicks] and [padding1] are [Uint8]; [x] and [y] are
    [Sint32]. *)
Module SDL_MouseButtonEvent.
Record t : Type := {
  type : Z;
  timestamp : Z;
  windowID : Z;
  which : Z;
  button : Z;
  state : Z;
  clicks : Z;
  padding1 : Z;
  x : Z;
  y : Z
}.
End SDL_MouseButtonEvent.

Module Event.
Module N := SDL_MouseButtonEvent.

(** The wrapper holds the native struct in the member [m_event] of its
    base [CommonEvent<SDL_MouseButtonEvent>]. *)
Record MouseButtonEvent : Type := { m_event : N.t }.

(** [MouseButton] and [ButtonState] are scoped enums; a value of either is
    its underlying integer. *)
Definition MouseButton := Z.
Definition ButtonState := Z.

(** [MouseButtonEvent(const SDL_MouseButtonEvent& event)] *)
Definition from_native (event : N.t) : MouseButtonEvent :=
  {| m_event := event |}.

(** The setters: one assignment to one field of [m_event] each;
    [set_button] and [set_state] assign [static_cast<u8>] of the enum. *)
Definition set_window_id (self : MouseButtonEvent) (id : Z)
  : MouseButtonEvent :=
  let e := m_event self in
  {| m_event := {| N.type := N.type e; N.timestamp := N.timestamp e;
                   N.windowID := id; N.which := N.which e;
                   N.button := N.button e; N.state := N.state e;
                   N.clicks := N.clicks e; N.padding1 := N.padding1 e;
                   N.x := N.x e; N.y := N.y e |} |}.

Definition set_which (self : MouseButtonEvent) (which : Z)
  : MouseButtonEvent :=
  let e := m_event self in
  {| m_event := {| N.type := N.type e; N.timestamp := N.timestamp e;
                   N.windowID := N.windowID e; N.which := which;
                   N.button := N.button e; N.state := N.state e;
                   N.clicks := N.clicks e; N.padding1 := N.padding1 e;
                   N.x := N.x e; N.y := N.y e |} |}.

Definition set_button (self : MouseButtonEvent) (button : MouseButton)
  : MouseButtonEvent :=
  let e := m_event self in
  {| m_event := {| N.type := N.type e; N.timestamp := N.timestamp e;
                   N.windowID := N.windowID e; N.which := N.which e;
                   N.button := to_u8 button; N.state := N.state e;
                   N.clicks := N.clicks e; N.padding1 := N.padding1 e;
                   N.x := N.x e; N.y := N.y e |} |}.

Definition set_state (self : MouseButtonEvent) (state : ButtonState)
  : MouseButtonEvent :=
  let e := m_event self in
  {| m_event := {| N.type := N.type e; N.timestamp := N.timestamp e;
                   N.windowID := N.windowID e; N.which := N.which e;
                   N.button := N.button e; N.state := to_u8 state;
                   N.clicks := N.clicks e; N.padding1 := N.padding1 e;
                   N.x := N.x e; N.y := N.y e |} |}.

Definition set_clicks (self : MouseButtonEvent) (clicks : Z)
  : MouseButtonEvent :=
  let e := m_event self in
  {| m_event := {| N.type := N.type e; N.timestamp := N.timestamp e;
                   N.windowID := N.windowID e; N.which := N.which e;
                   N.button := N.button e; N.state := N.state e;
                   N.clicks := clicks; N.padding1 := N.padding1 e;
                   N.x := N.x e; N.y := N.y e |} |}.

Definition set_x (self : MouseButtonEvent) (x : Z)
  : MouseButtonEvent :=
  let e := m_event self in
  {| m_event := {| N.type := N.type e; N.timestamp := N.timestamp e;
                   N.windowID := N.windowID e; N.which := N.which e;
                   N.button := N.button e; N.state := N.state e;
                   N.clicks := N.clicks e; N.padding1 := N.padding1 e;
                   N.x := x; N.y := N.y e |} |}.

Definition set_y (self : MouseButtonEvent) (y : Z)
  : MouseButtonEvent :=
  let e := m_event self in
  {| m_event := {| N.type := N.type e; N.timestamp := N.timestamp e;
                   N.windowID := N.windowID e; N.which := N.which e;
                   N.button := N.button e; N.state := N.state e;
                   N.clicks := N.clicks e; N.padding1 := N.padding1 e;
                   N.x := N.x e; N.y := y |} |}.

(** The getters; [button()] and [state()] cast the [u8] field to the enum. *)
Definition window_id (self : MouseButtonEvent) : Z := N.windowID (m_event self).
Definition which (self : MouseButtonEvent) : Z := N.which (m_event self).
Definition button (self : MouseButtonEvent) : MouseButton :=
  N.button (m_event self).
Definition state (self : MouseButtonEvent) : ButtonState :=
  N.state (m_event self).
Definition clicks (self : MouseButtonEvent) : Z := N.clicks (m_event self).
Definition x (self : MouseButtonEvent) : Z := N.x (m_event self).
Definition y (self : MouseButtonEvent) : Z := N.y (m_event self).

(** The fields of the native struct, in declaration order, and the value
    a struct holds in each. *)
Inductive field : Type :=
| Ftype | Ftimestamp | FwindowID | Fwhich | Fbutton | Fstate | Fclicks
| Fpadding1 | Fx | Fy.

Definition read (f : field) (e : N.t) : Z :=
  match f with
  | Ftype => N.type e
  | Ftimestamp => N.timestamp e
  | FwindowID => N.windowID e
  | Fwhich => N.which e
  | Fbutton => N.button e
  | Fstate => N.state e
  | Fclicks => N.clicks e
  | Fpadding1 => N.padding1 e
  | Fx => N.x e
  | Fy => N.y e
  end.

(** Every field but [g] of the struct in [e'] is as in [e]. *)
Definition others_kept (g : field) (e e' : MouseButtonEvent) : Prop :=
  forall f : field, f <> g -> read f (m_event e') = read f (m_event e).

End Event.

(** ** [centurion::CenturionException] (centurion_exception.cpp) *)

Module Exception.

(** A [const char*]: [None] is the null pointer, [Some buf] points at the
    bytes [buf]; the C string it denotes ends before the first NUL byte. *)
Definition czstring := option string.

Fixpoint until_nul (buf : string) : string :=
  match buf with
  | EmptyString => EmptyString
  | String c rest =>
      if Ascii.eqb c Ascii.zero then EmptyString
      else String c (until_nul rest)
  end.

(** The C string read through a pointer; reading through the null pointer
    is undefined, rendered as [None]. *)
Definition deref (p : czstring) : option string :=
  match p with
  | Some buf => Some (until_nul buf)
  | None => None
  end.

(** [std::string] built from a [const char*]: copies the C string at the pointer. *)
Definition std_string_of (p : czstring) : option string := deref p.

(** [std::string::c_str()] *)
Definition c_str (s : string) : czstring := Some s.

Record CenturionException : Type := { msg : string }.

(** [CenturionException(const char* msg) : msg{msg ? msg : "N/A"}];
    [None] if the member initialiser reads through a null pointer. *)
Definition ctor (msg' : czstring) : option CenturionException :=
  let p := match msg' with Some _ => msg' | None => Some "N/A"%string end in
  match std_string_of p with
  | Some s => Some {| msg := s |}
  | None => None
  end.

(** [CenturionException(const std::string& msg) : msg{msg}] *)
Definition ctor_string (msg' : string) : CenturionException :=
  {| msg := msg' |}.

(** [CenturionException::what()] *)
Definition what (self : CenturionException) : czstring := c_str (msg self).

End Exception.

(** ** [centurion::Texture] (graphics.hpp) *)

Module Texture.
Section WithLibrary.
Context {L : Type} `{Library L}.

Record Texture : Type := { m_texture : ptr }.

(** [Texture(const basic_renderer<T>& renderer, gsl::czstring path)]; the
    renderer is given by its [get()], the path is [None] when null. *)
Definition ctor_path (renderer : ptr) (path : option string) : M L Texture :=
  match path with
  | None => throw (centurion_exception "Can't load texture from null path!")
  | Some _ =>
      p <- native (IMG_LoadTexture renderer path) ;;
      if is_null p then throw (error_from_image "Failed to create Texture!")
      else ret {| m_texture := p |}
  end.

(** [Texture(const basic_renderer<T>& renderer, const Surface& surface)];
    renderer and surface are given by their [get()]. *)
Definition ctor_surface (renderer : ptr) (surface : ptr) : M L Texture :=
  p <- native (SDL_CreateTextureFromSurface renderer surface) ;;
  if is_null p
  then throw (error_from_core "Failed to create Texture from Surface!")
  else ret {| m_texture := p |}.

End WithLibrary.
End Texture.

(** ** A table-driven library and the SDL 2 header values *)

(** Any fixed table of return values is a library: every call is answered
    from the table and the table stays as it is. *)
#[export] Instance table_library : Library (call -> Z) :=
  {| sdl := fun c tbl => (tbl c, tbl) |}.

(** The constants as SDL 2.0 and SDL_mixer 2.0 define them. *)
Definition SDL2_header : NativeHeader := {|
  MIX_MAX_VOLUME := 128;
  MIX_NO_FADING := 0;
  MIX_FADING_OUT := 1;
  MIX_FADING_IN := 2;
  SDL_THREAD_PRIORITY_LOW := 0;
  SDL_THREAD_PRIORITY_NORMAL := 1;
  SDL_THREAD_PRIORITY_HIGH := 2;
  SDL_THREAD_PRIORITY_TIME_CRITICAL := 3;
  SDL_MOUSEWHEEL_NORMAL := 0;
  SDL_MOUSEWHEEL_FLIPPED := 1;
  SDL_HAPTIC_CONSTANT := Z.shiftl 1 0;
  SDL_HAPTIC_SINE := Z.shiftl 1 1;
  SDL_HAPTIC_LEFTRIGHT := Z.shiftl 1 2;
  SDL_HAPTIC_TRIANGLE := Z.shiftl 1 3;
  SDL_HAPTIC_SAWTOOTHUP := Z.shiftl 1 4;
  SDL_HAPTIC_SAWTOOTHDOWN := Z.shiftl 1 5;
  SDL_HAPTIC_RAMP := Z.shiftl 1 6;
  SDL_HAPTIC_SPRING := Z.shiftl 1 7;
  SDL_HAPTIC_DAMPER := Z.shiftl 1 8;
  SDL_HAPTIC_INERTIA := Z.shiftl 1 9;
  SDL_HAPTIC_FRICTION := Z.shiftl 1 10;
  SDL_HAPTIC_CUSTOM := Z.shiftl 1 11;
  SDL_HAPTIC_GAIN := Z.shiftl 1 12;
  SDL_HAPTIC_AUTOCENTER := Z.shiftl 1 13;
  SDL_HAPTIC_STATUS := Z.shiftl 1 14;
  SDL_HAPTIC_PAUSE := Z.shiftl 1 15
|}.

(** A native mouse button event: button X1 pressed twice at (10, 20). *)
Definition sample_mouse_button_event : SDL_MouseButtonEvent.t :=
  {| SDL_MouseButtonEvent.type := 1025;
     SDL_MouseButtonEvent.timestamp := 77;
     SDL_MouseButtonEvent.windowID := 75;
     SDL_MouseButtonEvent.which := 23;
     SDL_MouseButtonEvent.button := 4;
     SDL_MouseButtonEvent.state := 1;
     SDL_MouseButtonEvent.clicks := 2;
     SDL_MouseButtonEvent.padding1 := 0;
     SDL_MouseButtonEvent.x := 10;
     SDL_MouseButtonEvent.y := 20 |}.

(** A library in which a fade-in is in progress, every creation call
    fails, [SDL_HapticIndex] and the [int]-returning setters fail, and
    everything else returns [0]. *)
Definition failing_table : call -> Z := fun c =>
  match c with
  | Mix_FadingMusic => 2
  | SDL_SetThreadPriority _ => -1
  | SDL_HapticIndex _ => -1
  | SDL_SetClipboardText _ => -1
  | _ => 0
  end.

(** A library in which nothing fades, creation calls return the handle
    [4096], a joined thread reports status [7], the music volume is [100],
    and everything else returns [0]. *)
Definition working_table : call -> Z := fun c =>
  match c with
  | Mix_LoadMUS _ | SDL_CreateThread _ _ _ | SDL_HapticOpen _
  | SDL_HapticOpenFromMouse => 4096
  | SDL_WaitThread _ => 7
  | Mix_VolumeMusic _ => 100
  | SDL_HapticIndex _ => 3
  | _ => 0
  end.

(** ** [cen::Result]: comparison and printing (core/common.hpp) *)

Module ResultOps.

(** [operator==(Result, Result)]: compares the two [operator bool()]. *)
Definition eq (a b : Thread.result) : bool :=
  Bool.eqb (Thread.mSuccess a) (Thread.mSuccess b).

(** [operator!=(Result, Result)] *)
Definition ne (a b : Thread.result) : bool := negb (eq a b).

(** [to_string(Result)] *)
Definition to_string (r : Thread.result) : string :=
  if Thread.mSuccess r then "success"%string else "failure"%string.

End ResultOps.

(** ** The mixed comparison operators of [thread_priority] (thread.hpp)
       and of [mouse_wheel_direction], and its [to_string] *)

Module ThreadPriorityOps.
Section WithHeader.
Context `{NativeHeader}.

(** [operator!=(thread_priority, SDL_ThreadPriority)] and its mirror,
    each the negation of the [operator==] with the same argument order. *)
Definition ne (lhs : Thread.thread_priority) (rhs : Z) : bool :=
  negb (Thread.priority_eq lhs rhs).
Definition ne_native (lhs : Z) (rhs : Thread.thread_priority) : bool :=
  negb (Thread.priority_eq_native lhs rhs).

End WithHeader.
End ThreadPriorityOps.

Module MouseWheelOps.
Section WithHeader.
Context `{NativeHeader}.

(** [cen_error], thrown by [to_string] on an unrecognised value. *)
Inductive cen_error : Type := Cen_error (what : string).

(** [to_string(mouse_wheel_direction)].  The argument is any value of the
    enum type, given by its underlying integer; the [switch] has the two
    enumerators as labels and a throwing [default]. *)
Definition to_string (dir : Z) : string + cen_error :=
  if dir =? MouseWheel.to_underlying MouseWheel.normal
  then inl "normal"%string
  else if dir =? MouseWheel.to_underlying MouseWheel.flipped
       then inl "flipped"%string
       else inr (Cen_error "Did not recognize mouse wheel direction!").

(** [operator==(SDL_MouseWheelDirection, mouse_wheel_direction)] and the
    two [operator!=]. *)
Definition eq_native (lhs : Z) (rhs : MouseWheel.mouse_wheel_direction)
  : bool :=
  MouseWheel.direction_eq rhs lhs.
Definition ne (lhs : MouseWheel.mouse_wheel_direction) (rhs : Z) : bool :=
  negb (MouseWheel.direction_eq lhs rhs).
Definition ne_native (lhs : Z) (rhs : MouseWheel.mouse_wheel_direction)
  : bool :=
  negb (eq_native lhs rhs).

End WithHeader.
End MouseWheelOps.

(** ** Whole lives of a thread object *)

Module ThreadLifetime.
Section WithLibrary.
Context {L : Type} `{Library L}.

(** The native calls that give a thread up. *)
Definition is_release (c : call) : bool :=
  match c with
  | SDL_WaitThread _ | SDL_DetachThread _ => true
  | _ => false
  end.

(** A block that constructs a thread, calls [join()] / [detach()] on it in
    the given order, and leaves the scope.  When the constructor throws
    there is no object and no destructor runs. *)
Definition lifetime (task : ptr) (name : string) (data : ptr)
           (ops : list Thread.op) : M L unit :=
  self <- Thread.ctor task name data ;;
  self <- Thread.run ops self ;;
  Thread.dtor self.

(** [a = t.join(); b = t.join();] *)
Definition join_twice (self : Thread.thread) : M L (Z * Z * Thread.thread) :=
  r1 <- Thread.join self ;;
  r2 <- Thread.join (snd r1) ;;
  ret (fst r1, fst r2, snd r2).

End WithLibrary.
End ThreadLifetime.

(** ** Arguments that SDL_mixer accepts *)

Module MusicRanges.
Section WithHeader.
Context `{NativeHeader}.

(** A loop count is [-1] (forever) or more, a duration is not negative,
    a volume to set lies in [0, MIX_MAX_VOLUME]. *)
Definition argument_in_range (c : call) : bool :=
  match c with
  | Mix_PlayMusic _ loops => -1 <=? loops
  | Mix_FadeInMusic _ loops ms => ((-1 <=? loops) && (0 <=? ms))%bool
  | Mix_FadeOutMusic ms => 0 <=? ms
  | Mix_VolumeMusic v => ((0 <=? v) && (v <=? MIX_MAX_VOLUME))%bool
  | _ => true
  end.

End WithHeader.
End MusicRanges.

(** ** The named feature queries of [basic_haptic], by enumerator *)

Module HapticFeatures.
Section WithLibrary.
Context {L : Type} `{Library L} `{NativeHeader}.

(** The member [has_feature_<name>()] that carries the name of the
    enumerator. *)
Definition named_query (f : Haptic.haptic_feature)
  : Haptic.basic_haptic -> M L bool :=
  match f with
  | Haptic.constant => Haptic.has_feature_constant
  | Haptic.sine => Haptic.has_feature_sine
  | Haptic.left_right => Haptic.has_feature_left_right
  | Haptic.triangle => Haptic.has_feature_triangle
  | Haptic.sawtooth_up => Haptic.has_feature_sawtooth_up
  | Haptic.sawtooth_down => Haptic.has_feature_sawtooth_down
  | Haptic.ramp => Haptic.has_feature_ramp
  | Haptic.spring => Haptic.has_feature_spring
  | Haptic.damper => Haptic.has_feature_damper
  | Haptic.inertia => Haptic.has_feature_inertia
  | Haptic.friction => Haptic.has_feature_friction
  | Haptic.custom => Haptic.has_feature_custom
  | Haptic.gain => Haptic.has_feature_gain
  | Haptic.autocenter => Haptic.has_feature_autocenter
  | Haptic.status => Haptic.has_feature_status
  | Haptic.pause => Haptic.has_feature_pause
  end.

End WithLibrary.
End HapticFeatures.

(** ** Typed field values of [SDL_MouseButtonEvent] *)

Module EventRanges.

Definition fits_u8 (v : Z) : Prop := 0 <= v < 2 ^ 8.
Definition fits_u32 (v : Z) : Prop := 0 <= v < 2 ^ 32.
Definition fits_i32 (v : Z) : Prop := - 2 ^ 31 <= v < 2 ^ 31.

(** Every field holds a value of its declared type. *)
Definition well_typed (e : SDL_MouseButtonEvent.t) : Prop :=
  fits_u32 (SDL_MouseButtonEvent.type e)
  /\ fits_u32 (SDL_MouseButtonEvent.timestamp e)
  /\ fits_u32 (SDL_MouseButtonEvent.windowID e)
  /\ fits_u32 (SDL_MouseButtonEvent.which e)
  /\ fits_u8 (SDL_MouseButtonEvent.button e)
  /\ fits_u8 (SDL_MouseButtonEvent.state e)
  /\ fits_u8 (SDL_MouseButtonEvent.clicks e)
  /\ fits_u8 (SDL_MouseButtonEvent.padding1 e)
  /\ fits_i32 (SDL_MouseButtonEvent.x e)
  /\ fits_i32 (SDL_MouseButtonEvent.y e).

End EventRanges.

(** ** [centurion::event::ControllerButtonEvent]
       (controller_button_event.cpp) *)

(** The native [SDL_ControllerButtonEvent] of SDL_events.h: [type] and
    [timestamp] are [Uint32], [which] is an [SDL_JoystickID] ([Sint32]),
    [button], [state] and the two paddings are [Uint8]. *)
Module SDL_ControllerButtonEvent.
Record t : Type := {
  type : Z;
  timestamp : Z;
  which : Z;
  button : Z;
  state : Z;
  padding1 : Z;
  padding2 : Z
}.
End SDL_ControllerButtonEvent.

Module ControllerEvent.
Module N := SDL_ControllerButtonEvent.

Record ControllerButtonEvent : Type := { m_event : N.t }.

(** [GameControllerButton] and [ButtonState] are scoped enums; a value of
    either is its underlying integer. *)
Definition GameControllerButton := Z.
Definition ButtonState := Z.

(** [ControllerButtonEvent(const SDL_ControllerButtonEvent& event)] *)
Definition from_native (event : N.t) : ControllerButtonEvent :=
  {| m_event := event |}.

Definition set_button (self : ControllerButtonEvent)
           (button : GameControllerButton) : ControllerButtonEvent :=
  let e := m_event self in
  {| m_event := {| N.type := N.type e; N.timestamp := N.timestamp e;
                   N.which := N.which e; N.button := to_u8 button;
                   N.state := N.state e; N.padding1 := N.padding1 e;
                   N.padding2 := N.padding2 e |} |}.

Definition set_state (self : ControllerButtonEvent) (state : ButtonState)
  : ControllerButtonEvent :=
  let e := m_event self in
  {| m_event := {| N.type := N.type e; N.timestamp := N.timestamp e;
                   N.which := N.which e; N.button := N.button e;
                   N.state := to_u8 state; N.padding1 := N.padding1 e;
                   N.padding2 := N.padding2 e |} |}.

Definition set_which (self : ControllerButtonEvent) (id : Z)
  : ControllerButtonEvent :=
  let e := m_event self in
  {| m_event := {| N.type := N.type e; N.timestamp := N.timestamp e;
                   N.which := id; N.button := N.button e;
                   N.state := N.state e; N.padding1 := N.padding1 e;
                   N.padding2 := N.padding2 e |} |}.

Definition button (self : ControllerButtonEvent) : GameControllerButton :=
  N.button (m_event self).
Definition state (self : ControllerButtonEvent) : ButtonState :=
  N.state (m_event self).
Definition which (self : ControllerButtonEvent) : Z := N.which (m_event self).

End ControllerEvent.

(** ** [cen::detail::tuple_type_index] (detail/tuple_type_index.hpp) *)

Module TupleTypeIndex.
Section WithTypes.
(** The types of a program and [std::is_same_v] on them. *)
Context {T : Type} (is_same : T -> T -> bool).

(** Conversions to [std::size_t] (64 bits) and to [int] (32 bits, two's
    complement). *)
Definition to_size_t (v : Z) : Z := v mod 2 ^ 64.
Definition to_int (v : Z) : Z :=
  let w := v mod 2 ^ 32 in
  if w <? 2 ^ 31 then w else w - 2 ^ 32.

(** One operand of the fold, [is_same_v<Target, T> ? index + 1 : 0], of
    type [std::size_t]. *)
Definition operand (target : T) (index : Z) (t : T) : Z :=
  if is_same target t then to_size_t (index + 1) else 0.

(** The unary right fold [(E + ...)] over the pack [t, ts...], whose first
    element has the given index; every [+] is on [std::size_t]. *)
Fixpoint fold (target : T) (index : Z) (t : T) (ts : list T) : Z :=
  match ts with
  | [] => operand target index t
  | t' :: ts' =>
      to_size_t (operand target index t + fold target (index + 1) t' ts')
  end.

(** [tuple_type_index<Target, std::tuple<T...>>::value], that is
    [find(std::index_sequence_for<T...>{})]: [-1] is converted to
    [std::size_t] for the addition and the sum to [int] for the return.
    The fold over an empty pack does not compile: [None]. *)
Definition value (target : T) (ts : list T) : option Z :=
  match ts with
  | [] => None
  | t :: ts' =>
      Some (to_int (to_size_t (to_size_t (-1) + fold target 0 t ts')))
  end.

(** The positions of [target] in a pack whose first element has the
    given index, each plus one, added up without wrap-around. *)
Fixpoint weight (target : T) (index : Z) (ts : list T) : Z :=
  match ts with
  | [] => 0
  | t :: ts' =>
      (if is_same target t then index + 1 else 0)
      + weight target (index + 1) ts'
  end.

End WithTypes.
End TupleTypeIndex.

(** ** Messages with NUL bytes *)

Module ExceptionText.

(** No byte of the string is NUL. *)
Fixpoint nul_free (s : string) : bool :=
  match s with
  | EmptyString => true
  | String c rest => (negb (Ascii.eqb c Ascii.zero) && nul_free rest)%bool
  end.

End ExceptionText.

(** ** The setters of [MouseButtonEvent], by name *)

Module EventSetters.

Inductive setter : Type :=
| SetWindowId | SetWhich | SetButton | SetState | SetClicks | SetX | SetY.

(** The call [e.set_<name>(v)]. *)
Definition call_setter (s : setter) (e : Event.MouseButtonEvent) (v : Z)
  : Event.MouseButtonEvent :=
  match s with
  | SetWindowId => Event.set_window_id e v
  | SetWhich => Event.set_which e v
  | SetButton => Event.set_button e v
  | SetState => Event.set_state e v
  | SetClicks => Event.set_clicks e v
  | SetX => Event.set_x e v
  | SetY => Event.set_y e v
  end.

(** The getter of the same name. *)
Definition call_getter (s : setter) (e : Event.MouseButtonEvent) : Z :=
  match s with
  | SetWindowId => Event.window_id e
  | SetWhich => Event.which e
  | SetButton => Event.button e
  | SetState => Event.state e
  | SetClicks => Event.clicks e
  | SetX => Event.x e
  | SetY => Event.y e
  end.

(** The values of the parameter type of a setter: [u32] for
    [set_window_id] and [set_which], [u8] for [set_clicks], [i32] for
    [set_x] and [set_y], any enum value for [set_button] and
    [set_state]. *)
Definition argument_fits (s : setter) (v : Z) : Prop :=
  match s with
  | SetWindowId | SetWhich => EventRanges.fits_u32 v
  | SetClicks => EventRanges.fits_u8 v
  | SetX | SetY => EventRanges.fits_i32 v
  | SetButton | SetState => True
  end.

End EventSetters.

(** * Properties *)

(** ** The monad *)

Section MonadFacts.
Context {L : Type} `{Library L}.

Lemma bind_ret_l {A B} (a : A) (f : A -> M L B) (l : L) :
  bind (ret a) f l = f a l.
Proof.
  unfold bind, ret. destruct (f a l) as [[o l'] t]. reflexivity.
Qed.

Lemma bind_throw_l {A B} (e : exn) (f : A -> M L B) (l : L) :
  bind (throw e) f l = throw e l.
Proof. reflexivity. Qed.

Lemma bind_native {B} (c : call) (f : Z -> M L B) (l : L) :
  bind (native c) f l =
  (result_of (f (returned c l) (snd (sdl c l))),
   state_of (f (returned c l) (snd (sdl c l))),
   c :: calls_of (f (returned c l) (snd (sdl c l)))).
Proof.
  unfold bind, native, returned, result_of, state_of, calls_of.
  destruct (sdl c l) as [r l']. simpl.
  destruct (f r l') as [[o l''] t]. reflexivity.
Qed.

Lemma native_run (c : call) (l : L) :
  native c l = (Ret (returned c l), snd (sdl c l), [c]).
Proof.
  unfold native, returned. destruct (sdl c l) as [r l']. reflexivity.
Qed.

Lemma bind_assoc {A B C} (m : M L A) (f : A -> M L B) (g : B -> M L C)
      (l : L) :
  bind (bind m f) g l = bind m (fun a => bind (f a) g) l.
Proof.
  unfold bind. destruct (m l) as [[[a | e |] l1] t1]; try reflexivity.
  destruct (f a l1) as [[[b | e |] l2] t2]; try reflexivity.
  destruct (g b l2) as [[o l3] t3]. rewrite app_assoc. reflexivity.
Qed.

End MonadFacts.

(** Unfolds a run of wrapper code down to the answers of the library. *)
Ltac run_wrapper :=
  repeat (rewrite bind_native || rewrite native_run || rewrite bind_ret_l
          || rewrite bind_throw_l);
  unfold result_of, state_of, calls_of, ret, throw; simpl.

(** ** Constructors *)

Section Constructors.
Context {L : Type} `{Library L}.

Lemma is_null_spec (p : ptr) : is_null p = true <-> p = nullptr.
Proof. unfold is_null. apply Z.eqb_eq. Qed.

Lemma music_ctor_run (file : string) (l : L) :
  Music.ctor file l =
  (if is_null (returned (Mix_LoadMUS file) l)
   then Throw (mix_error "Failed to load music from file!")
   else Ret {| Music.m_music := returned (Mix_LoadMUS file) l |},
   snd (sdl (Mix_LoadMUS file) l),
   [Mix_LoadMUS file]).
Proof.
  unfold Music.ctor. run_wrapper.
  destruct (is_null (returned (Mix_LoadMUS file) l)); reflexivity.
Qed.

Lemma thread_ctor_run (task : ptr) (name : string) (data : ptr) (l : L) :
  Thread.ctor task name data l =
  (if is_null (returned (SDL_CreateThread task name data) l)
   then Throw sdl_error
   else Ret {| Thread.m_thread := returned (SDL_CreateThread task name data) l;
               Thread.m_joined := false;
               Thread.m_detached := false |},
   snd (sdl (SDL_CreateThread task name data) l),
   [SDL_CreateThread task name data]).
Proof.
  unfold Thread.ctor. run_wrapper.
  destruct (is_null (returned (SDL_CreateThread task name data) l));
    reflexivity.
Qed.

Lemma haptic_ctor_run (index : Z) (l : L) :
  Haptic.ctor index l =
  (if is_null (returned (SDL_HapticOpen index) l)
   then Throw sdl_error
   else Ret {| Haptic.m_haptic := returned (SDL_HapticOpen index) l |},
   snd (sdl (SDL_HapticOpen index) l),
   [SDL_HapticOpen index]).
Proof.
  unfold Haptic.ctor. run_wrapper.
  destruct (is_null (returned (SDL_HapticOpen index) l)); reflexivity.
Qed.

Lemma texture_ctor_path_run (renderer : ptr) (file : string) (l : L) :
  Texture.ctor_path renderer (Some file) l =
  (if is_null (returned (IMG_LoadTexture renderer (Some file)) l)
   then Throw (error_from_image "Failed to create Texture!")
   else Ret {| Texture.m_texture :=
                 returned (IMG_LoadTexture renderer (Some file)) l |},
   snd (sdl (IMG_LoadTexture renderer (Some file)) l),
   [IMG_LoadTexture renderer (Some file)]).
Proof.
  unfold Texture.ctor_path. run_wrapper.
  destruct (is_null (returned (IMG_LoadTexture renderer (Some file)) l));
    reflexivity.
Qed.

(** C2.  The constructors [music(file)], [thread(task, name, data)] and
    the owning [basic_haptic(index)] make their one creation call; each
    throws (a [mix_error], an [sdl_error], an [sdl_error]) exactly when
    that call returns the null pointer, and otherwise completes normally
    holding the non-null handle returned.  [Texture(renderer, path)] does
    the same with [IMG_LoadTexture] when the path is not null; on a null
    path it throws a [CenturionException] and makes no creation call. *)
Theorem constructors_throw_iff_creation_returns_null :
  forall (l : L) (file : string) (task : ptr) (name : string) (data : ptr)
         (index : Z) (renderer : ptr),
    (calls_of (Music.ctor file l) = [Mix_LoadMUS file]
     /\ (result_of (Music.ctor file l)
         = Throw (mix_error "Failed to load music from file!")
         <-> returned (Mix_LoadMUS file) l = nullptr)
     /\ (result_of (Music.ctor file l)
         = Ret {| Music.m_music := returned (Mix_LoadMUS file) l |}
         <-> returned (Mix_LoadMUS file) l <> nullptr))
    /\
    (calls_of (Thread.ctor task name data l)
     = [SDL_CreateThread task name data]
     /\ (result_of (Thread.ctor task name data l) = Throw sdl_error
         <-> returned (SDL_CreateThread task name data) l = nullptr)
     /\ (result_of (Thread.ctor task name data l)
         = Ret {| Thread.m_thread :=
                    returned (SDL_CreateThread task name data) l;
                  Thread.m_joined := false;
                  Thread.m_detached := false |}
         <-> returned (SDL_CreateThread task name data) l <> nullptr))
    /\
    (calls_of (Haptic.ctor index l) = [SDL_HapticOpen index]
     /\ (result_of (Haptic.ctor index l) = Throw sdl_error
         <-> returned (SDL_HapticOpen index) l = nullptr)
     /\ (result_of (Haptic.ctor index l)
         = Ret {| Haptic.m_haptic := returned (SDL_HapticOpen index) l |}
         <-> returned (SDL_HapticOpen index) l <> nullptr))
    /\
    (calls_of (Texture.ctor_path renderer (Some file) l)
     = [IMG_LoadTexture renderer (Some file)]
     /\ (result_of (Texture.ctor_path renderer (Some file) l)
         = Throw (error_from_image "Failed to create Texture!")
         <-> returned (IMG_LoadTexture renderer (Some file)) l = nullptr)
     /\ (result_of (Texture.ctor_path renderer (Some file) l)
         = Ret {| Texture.m_texture :=
                    returned (IMG_LoadTexture renderer (Some file)) l |}
         <-> returned (IMG_LoadTexture renderer (Some file)) l <> nullptr)
     /\ Texture.ctor_path renderer None l
        = (Throw (centurion_exception "Can't load texture from null path!"),
           l, [])).
Proof.
  intros l file task name data index renderer.
  rewrite music_ctor_run, thread_ctor_run, haptic_ctor_run,
    texture_ctor_path_run.
  unfold result_of, calls_of; simpl.
  repeat split; try reflexivity;
    match goal with
    | |- context [is_null ?p] =>
        destruct (is_null p) eqn:E;
        [ apply is_null_spec in E
        | assert (p <> nullptr)
            by (intro N; apply is_null_spec in N; congruence) ]
    end;
    intros; try congruence; try discriminate; try reflexivity; tauto.
Qed.

End Constructors.

Lemma constructors_throw_iff_creation_returns_null_witness :
  result_of (Music.ctor "missing.ogg" failing_table)
  = Throw (mix_error "Failed to load music from file!")
  /\ result_of (Music.ctor "theme.ogg" working_table)
     = Ret {| Music.m_music := 4096 |}
  /\ result_of (Thread.ctor 0 "worker" 0 failing_table) = Throw sdl_error
  /\ result_of (Haptic.ctor 0 failing_table) = Throw sdl_error.
Proof.
  destruct (@constructors_throw_iff_creation_returns_null
              _ table_library failing_table "missing.ogg" 0 "worker" 0 0 0)
    as ((_ & Hm & _) & (_ & Ht & _) & (_ & Hh & _) & _).
  destruct (@constructors_throw_iff_creation_returns_null
              _ table_library working_table "theme.ogg" 0 "worker" 0 0 0)
    as ((_ & _ & Hok) & _).
  split; [apply Hm; reflexivity |].
  split; [apply Hok; vm_compute; discriminate |].
  split; [apply Ht; reflexivity | apply Hh; reflexivity].
Defined.

(** Against C2, as a statement about every wrapper constructor: in a
    library where no creation call ever returns null,
    [Texture(renderer, path)] with a null path still throws, and it does
    so without making its creation call. *)
Lemma texture_from_null_path_throws_without_creation_call :
  (forall c : call, returned c (fun _ : call => 4096) <> nullptr)
  /\ result_of (Texture.ctor_path 4096 None (fun _ : call => 4096))
     = Throw (centurion_exception "Can't load texture from null path!")
  /\ calls_of (Texture.ctor_path 4096 None (fun _ : call => 4096)) = [].
Proof.
  split; [intros c; vm_compute; discriminate |].
  split; reflexivity.
Qed.

(** ** The thread object *)

Section ThreadFacts.
Context {L : Type} `{Library L}.

(** The guard shared by [join()] and [detach()]. *)
Lemma not_joinable_iff (t : Thread.thread) :
  (Thread.m_joined t || Thread.m_detached t)%bool = negb (Thread.joinable t).
Proof.
  unfold Thread.joinable.
  destruct (Thread.m_joined t), (Thread.m_detached t); reflexivity.
Qed.

Lemma join_run (t : Thread.thread) (l : L) :
  Thread.join t l =
  if Thread.joinable t
  then (Ret (returned (SDL_WaitThread (Thread.m_thread t)) l,
             {| Thread.m_thread := Thread.m_thread t;
                Thread.m_joined := true;
                Thread.m_detached := false |}),
        snd (sdl (SDL_WaitThread (Thread.m_thread t)) l),
        [SDL_WaitThread (Thread.m_thread t)])
  else (Ret (0, t), l, []).
Proof.
  unfold Thread.join, Thread.joinable.
  destruct (Thread.m_joined t), (Thread.m_detached t); simpl;
    try reflexivity.
  run_wrapper. reflexivity.
Qed.

Lemma detach_run (t : Thread.thread) (l : L) :
  Thread.detach t l =
  if Thread.joinable t
  then (Ret {| Thread.m_thread := Thread.m_thread t;
               Thread.m_joined := false;
               Thread.m_detached := true |},
        snd (sdl (SDL_DetachThread (Thread.m_thread t)) l),
        [SDL_DetachThread (Thread.m_thread t)])
  else (Ret t, l, []).
Proof.
  unfold Thread.detach, Thread.joinable.
  destruct (Thread.m_joined t), (Thread.m_detached t); simpl;
    try reflexivity.
  run_wrapper. reflexivity.
Qed.

Lemma step_run (o : Thread.op) (t : Thread.thread) (l : L) :
  Thread.step o t l =
  if Thread.joinable t
  then match o with
       | Thread.Join =>
           (Ret {| Thread.m_thread := Thread.m_thread t;
                   Thread.m_joined := true;
                   Thread.m_detached := false |},
            snd (sdl (SDL_WaitThread (Thread.m_thread t)) l),
            [SDL_WaitThread (Thread.m_thread t)])
       | Thread.Detach =>
           (Ret {| Thread.m_thread := Thread.m_thread t;
                   Thread.m_joined := false;
                   Thread.m_detached := true |},
            snd (sdl (SDL_DetachThread (Thread.m_thread t)) l),
            [SDL_DetachThread (Thread.m_thread t)])
       end
  else (Ret t, l, []).
Proof.
  destruct o; unfold Thread.step.
  - unfold bind. rewrite join_run.
    destruct (Thread.joinable t); reflexivity.
  - apply detach_run.
Qed.

(** Once joined or detached, the object is inert: any further sequence of
    calls returns it as it is, without a native call. *)
Lemma run_inert (ops : list Thread.op) (t : Thread.thread) (l : L) :
  Thread.joinable t = false ->
  Thread.run ops t l = (Ret t, l, []).
Proof.
  intros Hnj. induction ops as [| o ops IH]; simpl.
  - reflexivity.
  - unfold bind. rewrite step_run, Hnj. rewrite IH. reflexivity.
Qed.

(** The first call on a joinable object decides everything. *)
Lemma run_fresh (o : Thread.op) (ops : list Thread.op) (t : Thread.thread)
      (l : L) :
  Thread.joinable t = true ->
  Thread.run (o :: ops) t l = Thread.step o t l.
Proof.
  intros Hj. simpl. unfold bind. rewrite step_run, Hj.
  destruct o; rewrite run_inert by reflexivity; reflexivity.
Qed.

(** The invariant [!(m_joined && m_detached)] is kept by every sequence of
    calls, whatever the library answers, and no assertion fails. *)
Lemma run_keeps_invariant (ops : list Thread.op) :
  forall (t : Thread.thread) (l : L),
    (Thread.m_joined t && Thread.m_detached t)%bool = false ->
    exists t',
      result_of (Thread.run ops t l) = Ret t'
      /\ Thread.m_thread t' = Thread.m_thread t
      /\ (Thread.m_joined t' && Thread.m_detached t')%bool = false.
Proof.
  induction ops as [| o ops IH]; intros t l Hinv; simpl.
  - exists t. auto.
  - unfold bind. rewrite step_run.
    destruct (Thread.joinable t) eqn:Hj.
    + destruct o;
        match goal with
        | |- context [Thread.run ops ?t1 ?l1] =>
            destruct (IH t1 l1 eq_refl) as (t' & Hr & Hp & Hi);
            destruct (Thread.run ops t1 l1) as [[o' l2] c2];
            exists t'; unfold result_of in *; simpl in *; auto
        end.
    + destruct (IH t l Hinv) as (t' & Hr & Hp & Hi).
      destruct (Thread.run ops t l) as [[o' l2] c2].
      exists t'. unfold result_of in *; simpl in *; auto.
Qed.

(** C8.  On a thread object as its constructor leaves it, every sequence
    of [join()] / [detach()] calls returns normally with an object that is
    never both joined and detached; the object is joinable exactly when
    the sequence is empty; only the first call of the sequence reaches the
    library; and on the resulting object, once it is not joinable,
    [join()] returns [0] and [detach()] returns, both leaving the object
    and the library as they are and making no native call. *)
Theorem thread_join_detach_state_machine :
  forall (task : ptr) (name : string) (data : ptr) (l0 : L)
         (t0 : Thread.thread),
    result_of (Thread.ctor task name data l0) = Ret t0 ->
    forall (ops : list Thread.op) (l : L),
    exists t,
      result_of (Thread.run ops t0 l) = Ret t
      /\ Thread.get t = Thread.get t0
      /\ (Thread.was_joined t && Thread.was_detached t)%bool = false
      /\ (Thread.joinable t = true <-> ops = [])
      /\ Thread.joinable t
         = (negb (Thread.was_joined t) && negb (Thread.was_detached t))%bool
      /\ calls_of (Thread.run ops t0 l)
         = match ops with
           | [] => []
           | Thread.Join :: _ => [SDL_WaitThread (Thread.get t0)]
           | Thread.Detach :: _ => [SDL_DetachThread (Thread.get t0)]
           end
      /\ (Thread.joinable t = false ->
          forall l' : L,
            Thread.join t l' = (Ret (0, t), l', [])
            /\ Thread.detach t l' = (Ret t, l', [])).
Proof.
  intros task name data l0 t0 Hctor ops l.
  rewrite thread_ctor_run in Hctor. unfold result_of in Hctor; simpl in Hctor.
  destruct (is_null (returned (SDL_CreateThread task name data) l0));
    [discriminate |].
  injection Hctor as <-.
  set (p := returned (SDL_CreateThread task name data) l0).
  destruct ops as [| o ops].
  - eexists; simpl; unfold result_of, calls_of; simpl.
    repeat split; try reflexivity; try discriminate.
  - rewrite run_fresh by reflexivity. rewrite step_run. simpl.
    destruct o; eexists; unfold result_of, calls_of; simpl;
      (split; [reflexivity |]);
      (split; [reflexivity |]);
      (split; [reflexivity |]);
      (split; [split; discriminate |]);
      (split; [reflexivity |]);
      (split; [reflexivity |]);
      intros _ l'; rewrite join_run, detach_run; split; reflexivity.
Qed.

End ThreadFacts.

(** The same run on a library that creates threads. *)
Lemma thread_join_detach_state_machine_witness :
  result_of (Thread.ctor 0 "worker" 0 working_table)
  = Ret {| Thread.m_thread := 4096;
           Thread.m_joined := false;
           Thread.m_detached := false |}
  /\ exists t,
    result_of (Thread.run [Thread.Detach; Thread.Join; Thread.Join]
                 {| Thread.m_thread := 4096;
                    Thread.m_joined := false;
                    Thread.m_detached := false |} working_table) = Ret t
    /\ Thread.was_detached t = true
    /\ Thread.was_joined t = false.
Proof.
  split; [reflexivity |].
  destruct (@thread_join_detach_state_machine _ table_library
              0 "worker" 0 working_table
              {| Thread.m_thread := 4096;
                 Thread.m_joined := false;
                 Thread.m_detached := false |}
              eq_refl
              [Thread.Detach; Thread.Join; Thread.Join] working_table)
    as (t & Hr & _).
  exists t. split; [exact Hr |].
  vm_compute in Hr. injection Hr as <-. split; reflexivity.
Defined.

(** ** Destructors *)

Section Destructors.
Context {L : Type} `{Library L}.

Lemma thread_dtor_run (t : Thread.thread) (l : L) :
  Thread.dtor t l =
  if Thread.joinable t
  then (Ret tt, snd (sdl (SDL_WaitThread (Thread.m_thread t)) l),
        [SDL_WaitThread (Thread.m_thread t)])
  else (Ret tt, l, []).
Proof.
  unfold Thread.dtor. destruct (Thread.joinable t) eqn:Hj.
  - unfold bind. rewrite join_run, Hj. reflexivity.
  - reflexivity.
Qed.



End Destructors.


(** ** Music playback *)

Section MusicFacts.
Context {L : Type} `{Library L} `{NativeHeader}.

Lemma raise_to (lo v : Z) : (if v <? lo then lo else v) = Z.max v lo.
Proof. destruct (Z.ltb_spec v lo); lia. Qed.

Lemma clamp_bounds (v lo hi : Z) : lo <= hi -> lo <= clamp v lo hi <= hi.
Proof.
  intros Hle. unfold clamp.
  destruct (Z.ltb_spec v lo); [lia |].
  destruct (Z.ltb_spec hi v); lia.
Qed.

Lemma clamp_inside (v lo hi : Z) : lo <= v <= hi -> clamp v lo hi = v.
Proof.
  intros Hin. unfold clamp.
  destruct (Z.ltb_spec v lo); [lia |].
  destruct (Z.ltb_spec hi v); lia.
Qed.

Lemma clamp_below (v lo hi : Z) : v < lo -> clamp v lo hi = lo.
Proof. intros Hlt. unfold clamp. destruct (Z.ltb_spec v lo); lia. Qed.

Lemma clamp_above (v lo hi : Z) : lo <= hi -> hi < v -> clamp v lo hi = hi.
Proof.
  intros Hle Hlt. unfold clamp.
  destruct (Z.ltb_spec v lo); [lia |].
  destruct (Z.ltb_spec hi v); lia.
Qed.

Lemma play_run (self : Music.music) (nLoops : Z) (l : L) :
  Music.play self nLoops l =
  (Ret tt,
   snd (sdl (Mix_PlayMusic (Music.m_music self) (Z.max nLoops (-1))) l),
   [Mix_PlayMusic (Music.m_music self) (Z.max nLoops (-1))]).
Proof.
  unfold Music.play. rewrite raise_to. run_wrapper. reflexivity.
Qed.

Lemma fade_in_run (self : Music.music) (ms nLoops : Z) (l : L) :
  Music.fade_in self ms nLoops l =
  (Ret tt,
   snd (sdl (Mix_FadeInMusic (Music.m_music self) (Z.max nLoops (-1))
               (Z.max ms 0)) l),
   [Mix_FadeInMusic (Music.m_music self) (Z.max nLoops (-1)) (Z.max ms 0)]).
Proof.
  unfold Music.fade_in. rewrite !raise_to. run_wrapper. reflexivity.
Qed.

Lemma set_volume_run (volume : Z) (l : L) :
  Music.set_volume volume l =
  (Ret tt,
   snd (sdl (Mix_VolumeMusic (clamp volume 0 MIX_MAX_VOLUME)) l),
   [Mix_VolumeMusic (clamp volume 0 MIX_MAX_VOLUME)]).
Proof. unfold Music.set_volume. run_wrapper. reflexivity. Qed.

Lemma is_fading_run (l : L) :
  Music.is_fading l =
  (Ret ((returned Mix_FadingMusic l =? MIX_FADING_IN)
        || (returned Mix_FadingMusic l =? MIX_FADING_OUT))%bool,
   snd (sdl Mix_FadingMusic l),
   [Mix_FadingMusic]).
Proof.
  unfold Music.is_fading, Music.get_fade_status,
    Music.fade_status_in, Music.fade_status_out.
  run_wrapper. reflexivity.
Qed.

Lemma fade_out_run (ms : Z) (l : L) :
  Music.fade_out ms l =
  if ((returned Mix_FadingMusic l =? MIX_FADING_IN)
      || (returned Mix_FadingMusic l =? MIX_FADING_OUT))%bool
  then (Ret tt, snd (sdl Mix_FadingMusic l), [Mix_FadingMusic])
  else (Ret tt,
        snd (sdl (Mix_FadeOutMusic (Z.max ms 0)) (snd (sdl Mix_FadingMusic l))),
        [Mix_FadingMusic; Mix_FadeOutMusic (Z.max ms 0)]).
Proof.
  unfold Music.fade_out. unfold bind at 1. rewrite is_fading_run.
  destruct ((returned Mix_FadingMusic l =? MIX_FADING_IN)
            || (returned Mix_FadingMusic l =? MIX_FADING_OUT))%bool.
  - reflexivity.
  - rewrite raise_to. run_wrapper. reflexivity.
Qed.

(** C9.  Out-of-range arguments of the playback API are clamped and no
    error is reported: a loop count below [-1] reaches [Mix_PlayMusic] and
    [Mix_FadeInMusic] as [-1]; a negative duration reaches
    [Mix_FadeInMusic] as [0], and [fade_out] with a negative duration
    behaves as [fade_out] with [0], so the only duration it ever hands to
    [Mix_FadeOutMusic] is [0] (and it does hand it over whenever no fade is
    in progress); [set_volume] hands [clamp(volume, 0, MIX_MAX_VOLUME)] to
    [Mix_VolumeMusic], a value between [0] and [MIX_MAX_VOLUME].  Every one
    of these calls returns normally. *)
Theorem music_arguments_are_clamped :
  0 <= MIX_MAX_VOLUME ->
  forall (l : L) (self : Music.music) (ms nLoops volume : Z),
    (nLoops < -1 ->
     calls_of (Music.play self nLoops l)
     = [Mix_PlayMusic (Music.m_music self) (-1)]
     /\ calls_of (Music.fade_in self ms nLoops l)
        = [Mix_FadeInMusic (Music.m_music self) (-1) (Z.max ms 0)])
    /\ (ms < 0 ->
        calls_of (Music.fade_in self ms nLoops l)
        = [Mix_FadeInMusic (Music.m_music self) (Z.max nLoops (-1)) 0]
        /\ Music.fade_out ms l = Music.fade_out 0 l
        /\ (forall d : Z,
              In (Mix_FadeOutMusic d) (calls_of (Music.fade_out ms l)) ->
              d = 0)
        /\ (result_of (Music.is_fading l) = Ret false ->
            calls_of (Music.fade_out ms l)
            = [Mix_FadingMusic; Mix_FadeOutMusic 0]))
    /\ calls_of (Music.set_volume volume l)
       = [Mix_VolumeMusic (clamp volume 0 MIX_MAX_VOLUME)]
    /\ 0 <= clamp volume 0 MIX_MAX_VOLUME <= MIX_MAX_VOLUME
    /\ (volume < 0 -> clamp volume 0 MIX_MAX_VOLUME = 0)
    /\ (MIX_MAX_VOLUME < volume ->
        clamp volume 0 MIX_MAX_VOLUME = MIX_MAX_VOLUME)
    /\ result_of (Music.play self nLoops l) = Ret tt
    /\ result_of (Music.fade_in self ms nLoops l) = Ret tt
    /\ result_of (Music.fade_out ms l) = Ret tt
    /\ result_of (Music.set_volume volume l) = Ret tt.
Proof.
  intros Hmax l self ms nLoops volume.
  rewrite play_run, fade_in_run, set_volume_run.
  unfold calls_of, result_of; simpl.
  split; [| split; [| split; [| split; [| split; [| split;
    [| split; [| split; [| split]]]]]]]].
  - intros Hn. rewrite Z.max_r by lia. split; reflexivity.
  - intros Hms. rewrite !fade_out_run, is_fading_run. simpl.
    rewrite !(Z.max_r ms 0) by lia. change (Z.max 0 0) with 0.
    split; [reflexivity |]. split; [reflexivity |].
    split.
    + intros d.
      destruct ((returned Mix_FadingMusic l =? MIX_FADING_IN)
                || (returned Mix_FadingMusic l =? MIX_FADING_OUT))%bool;
        simpl; intros Hin.
      * destruct Hin as [Hin | []]. discriminate.
      * destruct Hin as [Hin | [Hin | []]]; [discriminate |].
        injection Hin as <-. reflexivity.
    + intros Hf. injection Hf as ->. reflexivity.
  - reflexivity.
  - apply clamp_bounds. exact Hmax.
  - intros Hv. apply clamp_below. exact Hv.
  - intros Hv. apply clamp_above; assumption.
  - reflexivity.
  - reflexivity.
  - rewrite fade_out_run.
    destruct ((returned Mix_FadingMusic l =? MIX_FADING_IN)
              || (returned Mix_FadingMusic l =? MIX_FADING_OUT))%bool;
      reflexivity.
  - reflexivity.
Qed.

End MusicFacts.

Lemma music_arguments_are_clamped_witness :
  0 <= @MIX_MAX_VOLUME SDL2_header
  /\ calls_of (@Music.play _ table_library {| Music.m_music := 4096 |} (-7)
                working_table)
     = [Mix_PlayMusic 4096 (-1)]
  /\ calls_of (@Music.fade_in _ table_library {| Music.m_music := 4096 |}
                (-250) (-7) working_table)
     = [Mix_FadeInMusic 4096 (-1) 0]
  /\ calls_of (@Music.fade_out _ table_library SDL2_header (-250)
                working_table)
     = [Mix_FadingMusic; Mix_FadeOutMusic 0]
  /\ calls_of (@Music.set_volume _ table_library SDL2_header 300
                working_table)
     = [Mix_VolumeMusic 128].
Proof.
  assert (Hmax : 0 <= @MIX_MAX_VOLUME SDL2_header) by (simpl; lia).
  split; [exact Hmax |].
  destruct (@music_arguments_are_clamped _ table_library SDL2_header Hmax
              working_table {| Music.m_music := 4096 |} (-250) (-7) 300)
    as (Hloops & Hms & Hvol & _).
  destruct (Hloops ltac:(lia)) as (Hplay & Hfade).
  destruct (Hms ltac:(lia)) as (_ & _ & _ & Hout).
  split; [exact Hplay |]. split; [exact Hfade |].
  split; [exact (Hout eq_refl) | exact Hvol].
Defined.

(** ** What reaches the library, and what comes back *)

Section Forwarding.
Context {L : Type} `{Library L} `{NativeHeader}.

(** C1, for arguments in range.  A setter forwards its argument unchanged when the
    argument is in range: [set_volume] for [0 <= volume <= MIX_MAX_VOLUME],
    [play] for [nLoops >= -1], [fade_in] for [ms >= 0] and [nLoops >= -1].
    The getters [music::volume], [music::get_fade_status], [music::type],
    [thread::get_id] and [basic_haptic::axis_count] return exactly what
    their native call returns. *)
Theorem in_range_values_are_forwarded_unchanged :
  forall (l : L) (self : Music.music) (t : Thread.thread)
         (h : Haptic.basic_haptic) (ms nLoops volume : Z),
    0 <= volume <= MIX_MAX_VOLUME ->
    -1 <= nLoops ->
    0 <= ms ->
    calls_of (Music.set_volume volume l) = [Mix_VolumeMusic volume]
    /\ calls_of (Music.play self nLoops l)
       = [Mix_PlayMusic (Music.m_music self) nLoops]
    /\ calls_of (Music.fade_in self ms nLoops l)
       = [Mix_FadeInMusic (Music.m_music self) nLoops ms]
    /\ Music.volume l
       = (Ret (returned (Mix_VolumeMusic (-1)) l),
          snd (sdl (Mix_VolumeMusic (-1)) l), [Mix_VolumeMusic (-1)])
    /\ Music.get_fade_status l
       = (Ret (returned Mix_FadingMusic l),
          snd (sdl Mix_FadingMusic l), [Mix_FadingMusic])
    /\ Music.type self l
       = (Ret (returned (Mix_GetMusicType (Music.m_music self)) l),
          snd (sdl (Mix_GetMusicType (Music.m_music self)) l),
          [Mix_GetMusicType (Music.m_music self)])
    /\ Thread.get_id t l
       = (Ret (returned (SDL_GetThreadID (Thread.m_thread t)) l),
          snd (sdl (SDL_GetThreadID (Thread.m_thread t)) l),
          [SDL_GetThreadID (Thread.m_thread t)])
    /\ Haptic.axis_count h l
       = (Ret (returned (SDL_HapticNumAxes (Haptic.m_haptic h)) l),
          snd (sdl (SDL_HapticNumAxes (Haptic.m_haptic h)) l),
          [SDL_HapticNumAxes (Haptic.m_haptic h)]).
Proof.
  intros l self t h ms nLoops volume Hvol Hloops Hms.
  rewrite set_volume_run, play_run, fade_in_run.
  rewrite clamp_inside by exact Hvol.
  rewrite (Z.max_l nLoops (-1)) by lia. rewrite (Z.max_l ms 0) by lia.
  unfold Music.volume, Music.get_fade_status, Music.type, Thread.get_id,
    Haptic.axis_count.
  rewrite !native_run. unfold calls_of; simpl.
  repeat split; reflexivity.
Qed.


(** C3, for the three functions it names.  [thread::set_priority], [basic_haptic::index] and
    [clipboard::set_text] never throw: they report a failed native call
    through their return value, which is [failure] exactly when
    [SDL_SetThreadPriority] returns non-zero, [std::nullopt] exactly when
    [SDL_HapticIndex] returns [-1], and [false] exactly when
    [SDL_SetClipboardText] returns non-zero. *)
Theorem fallible_operations_report_by_return_value :
  forall (l : L) (priority : Thread.thread_priority)
         (h : Haptic.basic_haptic) (text : string),
    (result_of (Thread.set_priority priority l)
     = Ret {| Thread.mSuccess :=
                returned (SDL_SetThreadPriority
                            (Thread.to_underlying priority)) l =? 0 |}
     /\ (result_of (Thread.set_priority priority l) = Ret Thread.failure
         <-> returned (SDL_SetThreadPriority
                         (Thread.to_underlying priority)) l <> 0)
     /\ is_throw (result_of (Thread.set_priority priority l)) = false)
    /\
    (result_of (Haptic.index h l)
     = Ret (if returned (SDL_HapticIndex (Haptic.m_haptic h)) l =? -1
            then None
            else Some (returned (SDL_HapticIndex (Haptic.m_haptic h)) l))
     /\ (result_of (Haptic.index h l) = Ret None
         <-> returned (SDL_HapticIndex (Haptic.m_haptic h)) l = -1)
     /\ is_throw (result_of (Haptic.index h l)) = false)
    /\
    (result_of (Clipboard.set_text text l)
     = Ret (returned (SDL_SetClipboardText text) l =? 0)
     /\ (result_of (Clipboard.set_text text l) = Ret false
         <-> returned (SDL_SetClipboardText text) l <> 0)
     /\ is_throw (result_of (Clipboard.set_text text l)) = false).
Proof.
  intros l priority h text.
  unfold Thread.set_priority, Haptic.index, Clipboard.set_text,
    Thread.failure.
  run_wrapper.
  set (rp := returned (SDL_SetThreadPriority _) l).
  set (ri := returned (SDL_HapticIndex _) l).
  set (rc := returned (SDL_SetClipboardText _) l).
  split; [| split].
  - split; [reflexivity |]. split; [| reflexivity].
    destruct (Z.eqb_spec rp 0); split; intros; congruence.
  - destruct (Z.eqb_spec ri (-1)); simpl;
      (split; [reflexivity |]); (split; [| reflexivity]);
      split; intros; congruence.
  - split; [reflexivity |]. split; [| reflexivity].
    destruct (Z.eqb_spec rc 0); split; intros; congruence.
Qed.

End Forwarding.

Lemma in_range_values_are_forwarded_unchanged_witness :
  0 <= 102 <= @MIX_MAX_VOLUME SDL2_header
  /\ -1 <= 2
  /\ 0 <= 100
  /\ calls_of (@Music.set_volume _ table_library SDL2_header 102
                working_table)
     = [Mix_VolumeMusic 102]
  /\ calls_of (@Music.play _ table_library {| Music.m_music := 4096 |} 2
                working_table)
     = [Mix_PlayMusic 4096 2]
  /\ calls_of (@Music.fade_in _ table_library {| Music.m_music := 4096 |}
                100 2 working_table)
     = [Mix_FadeInMusic 4096 2 100]
  /\ result_of (@Music.volume _ table_library working_table) = Ret 100.
Proof.
  assert (Hvol : 0 <= 102 <= @MIX_MAX_VOLUME SDL2_header) by (simpl; lia).
  assert (Hloops : -1 <= 2) by lia.
  assert (Hms : 0 <= 100) by lia.
  split; [exact Hvol |]. split; [exact Hloops |]. split; [exact Hms |].
  destruct (@in_range_values_are_forwarded_unchanged
              _ table_library SDL2_header working_table
              {| Music.m_music := 4096 |}
              {| Thread.m_thread := 4096;
                 Thread.m_joined := false;
                 Thread.m_detached := false |}
              {| Haptic.m_haptic := 4096 |}
              100 2 102 Hvol Hloops Hms)
    as (Hv & Hp & Hf & Hg & _).
  split; [exact Hv |]. split; [exact Hp |]. split; [exact Hf |].
  rewrite Hg. reflexivity.
Defined.

(** Against C1, on out-of-range arguments: [set_volume(-1)] hands [0] to
    [Mix_VolumeMusic], [play(-5)] hands [-1] to [Mix_PlayMusic], and
    [fade_in(-20 ms, -5)] hands [-1] and [0] to [Mix_FadeInMusic]. *)
Lemma out_of_range_values_are_not_forwarded :
  calls_of (@Music.set_volume _ table_library SDL2_header (-1) working_table)
  = [Mix_VolumeMusic 0]
  /\ calls_of (@Music.set_volume _ table_library SDL2_header (-1)
                working_table)
     <> [Mix_VolumeMusic (-1)]
  /\ calls_of (@Music.play _ table_library {| Music.m_music := 4096 |} (-5)
                working_table)
     = [Mix_PlayMusic 4096 (-1)]
  /\ calls_of (@Music.play _ table_library {| Music.m_music := 4096 |} (-5)
                working_table)
     <> [Mix_PlayMusic 4096 (-5)]
  /\ calls_of (@Music.fade_in _ table_library {| Music.m_music := 4096 |}
                (-20) (-5) working_table)
     = [Mix_FadeInMusic 4096 (-1) 0]
  /\ calls_of (@Music.fade_in _ table_library {| Music.m_music := 4096 |}
                (-20) (-5) working_table)
     <> [Mix_FadeInMusic 4096 (-5) (-20)].
Proof.
  repeat split; try reflexivity; vm_compute; discriminate.
Qed.



Lemma fallible_operations_report_by_return_value_witness :
  result_of (@Thread.set_priority _ table_library SDL2_header Thread.high
               working_table)
  = Ret Thread.success
  /\ result_of (@Haptic.index _ table_library {| Haptic.m_haptic := 4096 |}
                  working_table)
     = Ret (Some 3)
  /\ result_of (@Clipboard.set_text _ table_library "copied" failing_table)
     = Ret false.
Proof.
  destruct (@fallible_operations_report_by_return_value
              _ table_library SDL2_header working_table Thread.high
              {| Haptic.m_haptic := 4096 |} "copied")
    as ((Hp & _) & (Hi & _) & _).
  destruct (@fallible_operations_report_by_return_value
              _ table_library SDL2_header failing_table Thread.high
              {| Haptic.m_haptic := 4096 |} "copied")
    as (_ & _ & (_ & Hc & _)).
  split; [exact Hp |]. split; [exact Hi |].
  apply Hc. vm_compute. discriminate.
Defined.

(** Against C3, wherever the native call fails: in a library where
    [SDL_SetThreadPriority], [SDL_HapticIndex] and [SDL_SetClipboardText]
    all return [-1], the three wrappers return [failure], [std::nullopt]
    and [false]; none of them throws. *)
Lemma native_failures_are_returned_not_thrown :
  returned (SDL_SetThreadPriority
              (@Thread.to_underlying SDL2_header Thread.high)) failing_table
  = -1
  /\ result_of (@Thread.set_priority _ table_library SDL2_header Thread.high
                  failing_table)
     = Ret Thread.failure
  /\ returned (SDL_HapticIndex 4096) failing_table = -1
  /\ result_of (@Haptic.index _ table_library {| Haptic.m_haptic := 4096 |}
                  failing_table)
     = Ret None
  /\ returned (SDL_SetClipboardText "copied") failing_table = -1
  /\ result_of (@Clipboard.set_text _ table_library "copied" failing_table)
     = Ret false
  /\ is_throw (result_of (@Thread.set_priority _ table_library SDL2_header
                            Thread.high failing_table)) = false
  /\ is_throw (result_of (@Haptic.index _ table_library
                            {| Haptic.m_haptic := 4096 |} failing_table))
     = false
  /\ is_throw (result_of (@Clipboard.set_text _ table_library "copied"
                            failing_table)) = false.
Proof. repeat split. Qed.

(** ** Events *)

Section EventFacts.
Import Event.

Lemma to_u8_small (v : Z) : 0 <= v < 256 -> to_u8 v = v.
Proof. intros Hv. unfold to_u8. apply Z.mod_small. lia. Qed.

Lemma to_u8_range (v : Z) : 0 <= to_u8 v < 256.
Proof. unfold to_u8. apply Z.mod_pos_bound. lia. Qed.

Ltac kept := intros f Hf; destruct f; try reflexivity; congruence.

(** C5.  Each setter of [MouseButtonEvent] writes its argument to the one
    matching field of the wrapped [SDL_MouseButtonEvent], the matching
    getter reads it back, and the nine other fields keep their values.
    [set_x], [set_y], [set_which], [set_window_id] and [set_clicks] store
    the argument as it is; [set_button] and [set_state] store the enum
    value cast to [u8], which is the value itself for every value that
    fits in a byte. *)
Theorem mouse_button_event_setters_mirror_fields :
  forall (e : MouseButtonEvent) (v : Z),
    (read Fx (m_event (set_x e v)) = v
     /\ x (set_x e v) = v
     /\ others_kept Fx e (set_x e v))
    /\ (read Fy (m_event (set_y e v)) = v
        /\ y (set_y e v) = v
        /\ others_kept Fy e (set_y e v))
    /\ (read Fwhich (m_event (set_which e v)) = v
        /\ which (set_which e v) = v
        /\ others_kept Fwhich e (set_which e v))
    /\ (read FwindowID (m_event (set_window_id e v)) = v
        /\ window_id (set_window_id e v) = v
        /\ others_kept FwindowID e (set_window_id e v))
    /\ (read Fclicks (m_event (set_clicks e v)) = v
        /\ clicks (set_clicks e v) = v
        /\ others_kept Fclicks e (set_clicks e v))
    /\ (read Fbutton (m_event (set_button e v)) = to_u8 v
        /\ button (set_button e v) = to_u8 v
        /\ (0 <= v < 256 -> button (set_button e v) = v)
        /\ others_kept Fbutton e (set_button e v))
    /\ (read Fstate (m_event (set_state e v)) = to_u8 v
        /\ state (set_state e v) = to_u8 v
        /\ (0 <= v < 256 -> state (set_state e v) = v)
        /\ others_kept Fstate e (set_state e v)).
Proof.
  intros e v.
  repeat match goal with
         | |- _ /\ _ => split
         end;
    try reflexivity; try kept;
    intros Hv; simpl; apply to_u8_small; exact Hv.
Qed.

End EventFacts.

Lemma mouse_button_event_setters_mirror_fields_witness :
  let e := Event.from_native
             {| SDL_MouseButtonEvent.type := 1025;
                SDL_MouseButtonEvent.timestamp := 77;
                SDL_MouseButtonEvent.windowID := 75;
                SDL_MouseButtonEvent.which := 23;
                SDL_MouseButtonEvent.button := 4;
                SDL_MouseButtonEvent.state := 1;
                SDL_MouseButtonEvent.clicks := 2;
                SDL_MouseButtonEvent.padding1 := 0;
                SDL_MouseButtonEvent.x := 10;
                SDL_MouseButtonEvent.y := 20 |} in
  Event.x (Event.set_x e 645) = 645
  /\ Event.y (Event.set_x e 645) = 20
  /\ Event.button (Event.set_button e 3) = 3
  /\ Event.clicks (Event.set_button e 3) = 2.
Proof.
  intros e.
  destruct (mouse_button_event_setters_mirror_fields e 645)
    as ((_ & Hx & Hkept) & _).
  destruct (mouse_button_event_setters_mirror_fields e 3)
    as (_ & _ & _ & _ & _ & (_ & _ & Hb & Hbk) & _).
  split; [exact Hx |].
  split; [exact (Hkept Event.Fy ltac:(discriminate)) |].
  split; [exact (Hb ltac:(lia)) |].
  exact (Hbk Event.Fclicks ltac:(discriminate)).
Defined.

(** Against C5, for enum values that do not fit a byte: [set_button(-1)]
    stores [255] and [button()] then returns [255]; [set_state(256)]
    stores [0] and [state()] then returns [0]. *)
Lemma enum_setters_store_only_the_low_byte :
  SDL_MouseButtonEvent.button
    (Event.m_event
       (Event.set_button (Event.from_native sample_mouse_button_event) (-1)))
  = 255
  /\ Event.button
       (Event.set_button (Event.from_native sample_mouse_button_event) (-1))
     <> -1
  /\ SDL_MouseButtonEvent.state
       (Event.m_event
          (Event.set_state (Event.from_native sample_mouse_button_event) 256))
     = 0
  /\ Event.state
       (Event.set_state (Event.from_native sample_mouse_button_event) 256)
     <> 256.
Proof.
  repeat split; try reflexivity; vm_compute; discriminate.
Qed.

(** ** Enumerations *)

Section EnumFacts.
Context {L : Type} `{Library L} `{NativeHeader}.

(** C6.  Every enumerator of [thread_priority], [mouse_wheel_direction]
    and [haptic_feature] has the value of the native constant it is named
    after; the mixed comparison operators agree with that, and
    [set_priority] hands the native constant to [SDL_SetThreadPriority]. *)
Theorem enumerators_equal_native_constants :
  (Thread.to_underlying Thread.low = SDL_THREAD_PRIORITY_LOW
   /\ Thread.to_underlying Thread.normal = SDL_THREAD_PRIORITY_NORMAL
   /\ Thread.to_underlying Thread.high = SDL_THREAD_PRIORITY_HIGH
   /\ Thread.to_underlying Thread.critical
      = SDL_THREAD_PRIORITY_TIME_CRITICAL)
  /\ (MouseWheel.to_underlying MouseWheel.normal = SDL_MOUSEWHEEL_NORMAL
      /\ MouseWheel.to_underlying MouseWheel.flipped
         = SDL_MOUSEWHEEL_FLIPPED)
  /\ (Haptic.to_underlying Haptic.constant = SDL_HAPTIC_CONSTANT
      /\ Haptic.to_underlying Haptic.sine = SDL_HAPTIC_SINE
      /\ Haptic.to_underlying Haptic.left_right = SDL_HAPTIC_LEFTRIGHT
      /\ Haptic.to_underlying Haptic.triangle = SDL_HAPTIC_TRIANGLE
      /\ Haptic.to_underlying Haptic.sawtooth_up = SDL_HAPTIC_SAWTOOTHUP
      /\ Haptic.to_underlying Haptic.sawtooth_down = SDL_HAPTIC_SAWTOOTHDOWN
      /\ Haptic.to_underlying Haptic.ramp = SDL_HAPTIC_RAMP
      /\ Haptic.to_underlying Haptic.spring = SDL_HAPTIC_SPRING
      /\ Haptic.to_underlying Haptic.damper = SDL_HAPTIC_DAMPER
      /\ Haptic.to_underlying Haptic.inertia = SDL_HAPTIC_INERTIA
      /\ Haptic.to_underlying Haptic.friction = SDL_HAPTIC_FRICTION
      /\ Haptic.to_underlying Haptic.custom = SDL_HAPTIC_CUSTOM
      /\ Haptic.to_underlying Haptic.gain = SDL_HAPTIC_GAIN
      /\ Haptic.to_underlying Haptic.autocenter = SDL_HAPTIC_AUTOCENTER
      /\ Haptic.to_underlying Haptic.status = SDL_HAPTIC_STATUS
      /\ Haptic.to_underlying Haptic.pause = SDL_HAPTIC_PAUSE)
  /\ (forall p : Thread.thread_priority,
        Thread.priority_eq p (Thread.to_underlying p) = true
        /\ Thread.priority_eq_native (Thread.to_underlying p) p = true)
  /\ (forall d : MouseWheel.mouse_wheel_direction,
        MouseWheel.direction_eq d (MouseWheel.to_underlying d) = true)
  /\ (forall l : L,
        calls_of (Thread.set_priority Thread.critical l)
        = [SDL_SetThreadPriority SDL_THREAD_PRIORITY_TIME_CRITICAL]).
Proof.
  repeat match goal with
         | |- _ /\ _ => split
         end;
    try reflexivity.
  - intros p. unfold Thread.priority_eq_native, Thread.priority_eq.
    rewrite Z.eqb_refl. split; reflexivity.
  - intros d. unfold MouseWheel.direction_eq. apply Z.eqb_refl.
  - intros l. unfold Thread.set_priority. run_wrapper. reflexivity.
Qed.

(** The two overloads of [has_feature] ask the library the same question
    whenever the flag fits in an [unsigned]. *)
Lemma has_feature_by_enum (h : Haptic.basic_haptic)
      (f : Haptic.haptic_feature) (l : L) :
  0 <= Haptic.to_underlying f < 2 ^ 32 ->
  Haptic.has_feature h f l
  = Haptic.has_feature_flag h (Haptic.to_underlying f) l.
Proof.
  intros Hrange. unfold Haptic.has_feature, to_unsigned.
  rewrite Z.mod_small by exact Hrange. reflexivity.
Qed.

End EnumFacts.

(** ** Exceptions *)

Section ExceptionFacts.
Import Exception.

Lemma until_nul_idem (buf : string) :
  until_nul (until_nul buf) = until_nul buf.
Proof.
  induction buf as [| c rest IH]; simpl.
  - reflexivity.
  - destruct (Ascii.eqb c Ascii.zero) eqn:Hc; simpl.
    + reflexivity.
    + rewrite Hc, IH. reflexivity.
Qed.

(** C10.  For every [const char*], null or not, the constructor is
    defined (it reads through no null pointer) and stores the C string at
    the pointer, or ["N/A"] for the null pointer; [what()] points at
    exactly the stored string. *)
Theorem exception_from_null_pointer_is_placeholder :
  forall m : czstring,
    exists e : CenturionException,
      ctor m = Some e
      /\ msg e = match m with
                 | Some buf => until_nul buf
                 | None => "N/A"%string
                 end
      /\ what e = Some (msg e)
      /\ deref (what e) = Some (msg e)
      /\ deref (what e) = match m with
                          | Some _ => deref m
                          | None => Some "N/A"%string
                          end.
Proof.
  intros [buf |].
  - exists {| msg := until_nul buf |}. unfold ctor, what, c_str; simpl.
    rewrite until_nul_idem. repeat split; reflexivity.
  - exists {| msg := "N/A" |}. repeat split; reflexivity.
Qed.

End ExceptionFacts.

Lemma exception_from_null_pointer_is_placeholder_witness :
  Exception.ctor None = Some {| Exception.msg := "N/A" |}
  /\ Exception.ctor (Some "Oops"%string)
     = Some {| Exception.msg := "Oops" |}.
Proof.
  destruct (exception_from_null_pointer_is_placeholder None)
    as (e & He & Hm & _).
  destruct (exception_from_null_pointer_is_placeholder (Some "Oops"%string))
    as (e' & He' & Hm' & _).
  destruct e as [s], e' as [s']. simpl in Hm, Hm'. subst s s'.
  split; assumption.
Defined.

(** * Further properties of the embedded code *)

(** ** Sequencing *)

Section BindFacts.
Context {L : Type} `{Library L}.

Lemma bind_after_ret {A B} (m : M L A) (f : A -> M L B) (l l1 : L) (a : A)
      (t1 : list call) :
  m l = (Ret a, l1, t1) ->
  bind m f l
  = (result_of (f a l1), state_of (f a l1), t1 ++ calls_of (f a l1)).
Proof.
  intros Hm. unfold bind, result_of, state_of, calls_of. rewrite Hm.
  destruct (f a l1) as [[o l2] t2]. reflexivity.
Qed.

Lemma bind_after_throw {A B} (m : M L A) (f : A -> M L B) (l l1 : L)
      (e : exn) (t1 : list call) :
  m l = (Throw e, l1, t1) ->
  bind m f l = (Throw e, l1, t1).
Proof. intros Hm. unfold bind. rewrite Hm. reflexivity. Qed.

End BindFacts.

(** ** Whole lives of a thread *)

Section ThreadLifetimeFacts.
Context {L : Type} `{Library L}.

Lemma lifetime_run (task : ptr) (name : string) (data : ptr)
      (ops : list Thread.op) (l : L) :
  let c := SDL_CreateThread task name data in
  let p := returned c l in
  ThreadLifetime.lifetime task name data ops l =
  if is_null p then (Throw sdl_error, snd (sdl c l), [c])
  else
    match ops with
    | Thread.Detach :: _ =>
        (Ret tt, snd (sdl (SDL_DetachThread p) (snd (sdl c l))),
         [c; SDL_DetachThread p])
    | _ =>
        (Ret tt, snd (sdl (SDL_WaitThread p) (snd (sdl c l))),
         [c; SDL_WaitThread p])
    end.
Proof.
  intros c p. unfold ThreadLifetime.lifetime.
  pose proof (thread_ctor_run task name data l) as Hctor.
  fold c in Hctor. fold p in Hctor.
  destruct (is_null p).
  - apply bind_after_throw. exact Hctor.
  - rewrite (bind_after_ret _ _ _ _ _ _ Hctor).
    destruct ops as [| o ops].
    + simpl Thread.run. rewrite bind_ret_l, thread_dtor_run. reflexivity.
    + destruct o;
        (erewrite bind_after_ret
           by (rewrite run_fresh by reflexivity; rewrite step_run;
               reflexivity));
        rewrite thread_dtor_run; reflexivity.
Qed.

(** X1.  A block that creates a thread, calls [join()] and [detach()] on
    it any number of times in any order, and lets it go out of scope gives
    the native thread up exactly once: by [SDL_DetachThread] when the
    first call was [detach()], by [SDL_WaitThread] otherwise (the first
    [join()], or the destructor when nothing was called).  No other native
    call is made and the block ends normally. *)
Theorem thread_is_released_exactly_once :
  forall (task : ptr) (name : string) (data : ptr) (ops : list Thread.op)
         (l : L),
    returned (SDL_CreateThread task name data) l <> nullptr ->
    result_of (ThreadLifetime.lifetime task name data ops l) = Ret tt
    /\ calls_of (ThreadLifetime.lifetime task name data ops l)
       = [SDL_CreateThread task name data;
          match ops with
          | Thread.Detach :: _ =>
              SDL_DetachThread (returned (SDL_CreateThread task name data) l)
          | _ =>
              SDL_WaitThread (returned (SDL_CreateThread task name data) l)
          end]
    /\ count_calls ThreadLifetime.is_release
         (calls_of (ThreadLifetime.lifetime task name data ops l))
       = 1%nat.
Proof.
  intros task name data ops l Hp.
  rewrite lifetime_run.
  destruct (is_null (returned (SDL_CreateThread task name data) l)) eqn:Hn.
  - apply is_null_spec in Hn. contradiction.
  - destruct ops as [| [|] ops]; repeat split; reflexivity.
Qed.

(** X2.  When [SDL_CreateThread] fails, the block ends with [sdl_error]
    after that one call: nothing is joined or detached, for there is no
    thread object to destroy. *)
Theorem failed_thread_is_never_released :
  forall (task : ptr) (name : string) (data : ptr) (ops : list Thread.op)
         (l : L),
    returned (SDL_CreateThread task name data) l = nullptr ->
    result_of (ThreadLifetime.lifetime task name data ops l)
    = Throw sdl_error
    /\ calls_of (ThreadLifetime.lifetime task name data ops l)
       = [SDL_CreateThread task name data].
Proof.
  intros task name data ops l Hp.
  rewrite lifetime_run.
  apply is_null_spec in Hp. rewrite Hp. split; reflexivity.
Qed.

(** X3.  The exit status of a thread can be read once: the first
    [join()] on a joinable thread returns the status that [SDL_WaitThread]
    delivered, a second [join()] returns [0] without asking the library
    again. *)
Theorem join_status_is_delivered_once :
  forall (t : Thread.thread) (l : L),
    Thread.joinable t = true ->
    ThreadLifetime.join_twice t l
    = (Ret (returned (SDL_WaitThread (Thread.get t)) l, 0,
            {| Thread.m_thread := Thread.get t;
               Thread.m_joined := true;
               Thread.m_detached := false |}),
       snd (sdl (SDL_WaitThread (Thread.get t)) l),
       [SDL_WaitThread (Thread.get t)]).
Proof.
  intros t l Hj. unfold ThreadLifetime.join_twice, Thread.get.
  erewrite bind_after_ret by (rewrite join_run, Hj; reflexivity).
  simpl snd. simpl fst.
  erewrite bind_after_ret by (rewrite join_run; reflexivity).
  reflexivity.
Qed.

End ThreadLifetimeFacts.

Lemma thread_is_released_exactly_once_witness :
  returned (SDL_CreateThread 0 "worker" 0) working_table <> nullptr
  /\ calls_of (ThreadLifetime.lifetime 0 "worker" 0
                 [Thread.Join; Thread.Detach; Thread.Join] working_table)
     = [SDL_CreateThread 0 "worker" 0; SDL_WaitThread 4096].
Proof.
  assert (Hp : returned (SDL_CreateThread 0 "worker" 0) working_table
               <> nullptr) by (vm_compute; discriminate).
  split; [exact Hp |].
  exact (proj1 (proj2 (@thread_is_released_exactly_once _ table_library
                         0 "worker" 0
                         [Thread.Join; Thread.Detach; Thread.Join]
                         working_table Hp))).
Defined.

Lemma failed_thread_is_never_released_witness :
  returned (SDL_CreateThread 0 "worker" 0) failing_table = nullptr
  /\ calls_of (ThreadLifetime.lifetime 0 "worker" 0
                 [Thread.Join; Thread.Detach] failing_table)
     = [SDL_CreateThread 0 "worker" 0].
Proof.
  split; [reflexivity |].
  exact (proj2 (@failed_thread_is_never_released _ table_library
                  0 "worker" 0 [Thread.Join; Thread.Detach] failing_table
                  eq_refl)).
Defined.

Lemma join_status_is_delivered_once_witness :
  Thread.joinable {| Thread.m_thread := 4096;
                     Thread.m_joined := false;
                     Thread.m_detached := false |} = true
  /\ result_of (ThreadLifetime.join_twice
                  {| Thread.m_thread := 4096;
                     Thread.m_joined := false;
                     Thread.m_detached := false |} working_table)
     = Ret (7, 0, {| Thread.m_thread := 4096;
                     Thread.m_joined := true;
                     Thread.m_detached := false |}).
Proof.
  split; [reflexivity |].
  rewrite (@join_status_is_delivered_once _ table_library
             {| Thread.m_thread := 4096;
                Thread.m_joined := false;
                Thread.m_detached := false |} working_table eq_refl).
  reflexivity.
Defined.

(** ** Comparing and printing enum values *)

Section EnumOperatorFacts.
Context `{NativeHeader}.

Lemma thread_priority_injective (p q : Thread.thread_priority) :
  NoDup [SDL_THREAD_PRIORITY_LOW; SDL_THREAD_PRIORITY_NORMAL;
         SDL_THREAD_PRIORITY_HIGH; SDL_THREAD_PRIORITY_TIME_CRITICAL] ->
  Thread.to_underlying p = Thread.to_underlying q -> p = q.
Proof.
  intros Hnd Heq.
  inversion Hnd as [| a1 r1 Hn1 Hnd1]; subst.
  inversion Hnd1 as [| a2 r2 Hn2 Hnd2]; subst.
  inversion Hnd2 as [| a3 r3 Hn3 Hnd3]; subst.
  simpl in Hn1, Hn2, Hn3.
  destruct p, q; simpl in Heq; try reflexivity; exfalso;
    first [ apply Hn1; rewrite Heq; tauto
          | apply Hn1; rewrite <- Heq; tauto
          | apply Hn2; rewrite Heq; tauto
          | apply Hn2; rewrite <- Heq; tauto
          | apply Hn3; rewrite Heq; tauto
          | apply Hn3; rewrite <- Heq; tauto ].
Qed.

(** X4.  When the four native priorities are pairwise different, the
    mixed [operator==] of [thread_priority] and [SDL_ThreadPriority] holds
    exactly between an enumerator and its own native constant, in either
    argument order, and both [operator!=] are its negation. *)
Theorem thread_priority_operators_decide_equality :
  NoDup [SDL_THREAD_PRIORITY_LOW; SDL_THREAD_PRIORITY_NORMAL;
         SDL_THREAD_PRIORITY_HIGH; SDL_THREAD_PRIORITY_TIME_CRITICAL] ->
  forall p q : Thread.thread_priority,
    (Thread.priority_eq p (Thread.to_underlying q) = true <-> p = q)
    /\ (Thread.priority_eq_native (Thread.to_underlying q) p = true
        <-> p = q)
    /\ (ThreadPriorityOps.ne p (Thread.to_underlying q) = true <-> p <> q)
    /\ (ThreadPriorityOps.ne_native (Thread.to_underlying q) p = true
        <-> p <> q).
Proof.
  intros Hnd p q.
  assert (Heq : Thread.priority_eq p (Thread.to_underlying q) = true
                <-> p = q).
  { unfold Thread.priority_eq. rewrite Z.eqb_eq. split.
    - apply thread_priority_injective. exact Hnd.
    - intros ->. reflexivity. }
  unfold ThreadPriorityOps.ne, ThreadPriorityOps.ne_native,
    Thread.priority_eq_native.
  rewrite Bool.negb_true_iff, <- Bool.not_true_iff_false.
  tauto.
Qed.

(** X5.  For different native wheel constants, [to_string] of a
    [mouse_wheel_direction] returns the name of the enumerator, and throws
    [cen_error] exactly for a value that is neither enumerator; the mixed
    comparison operators hold exactly between an enumerator and its own
    native constant. *)
Theorem mouse_wheel_direction_printing_and_comparison :
  SDL_MOUSEWHEEL_NORMAL <> SDL_MOUSEWHEEL_FLIPPED ->
  forall (d d' : MouseWheel.mouse_wheel_direction) (v : Z),
    MouseWheelOps.to_string (MouseWheel.to_underlying d)
    = inl (match d with
           | MouseWheel.normal => "normal"%string
           | MouseWheel.flipped => "flipped"%string
           end)
    /\ (MouseWheelOps.to_string v
        = inr (MouseWheelOps.Cen_error
                 "Did not recognize mouse wheel direction!")
        <-> v <> SDL_MOUSEWHEEL_NORMAL /\ v <> SDL_MOUSEWHEEL_FLIPPED)
    /\ (MouseWheel.direction_eq d (MouseWheel.to_underlying d') = true
        <-> d = d')
    /\ (MouseWheelOps.eq_native (MouseWheel.to_underlying d') d = true
        <-> d = d')
    /\ (MouseWheelOps.ne d (MouseWheel.to_underlying d') = true <-> d <> d')
    /\ (MouseWheelOps.ne_native (MouseWheel.to_underlying d') d = true
        <-> d <> d').
Proof.
  intros Hne d d' v.
  assert (Heq : MouseWheel.direction_eq d (MouseWheel.to_underlying d') = true
                <-> d = d').
  { unfold MouseWheel.direction_eq. rewrite Z.eqb_eq.
    destruct d, d'; simpl; split; intros Hx;
      try reflexivity; try discriminate; congruence. }
  split; [| split].
  - unfold MouseWheelOps.to_string. destruct d; simpl.
    + rewrite Z.eqb_refl. reflexivity.
    + destruct (Z.eqb_spec SDL_MOUSEWHEEL_FLIPPED SDL_MOUSEWHEEL_NORMAL);
        [congruence |].
      rewrite Z.eqb_refl. reflexivity.
  - unfold MouseWheelOps.to_string; simpl.
    destruct (Z.eqb_spec v SDL_MOUSEWHEEL_NORMAL);
      [split; [discriminate | tauto] |].
    destruct (Z.eqb_spec v SDL_MOUSEWHEEL_FLIPPED);
      [split; [discriminate | tauto] |].
    split; [tauto | reflexivity].
  - unfold MouseWheelOps.ne, MouseWheelOps.ne_native,
      MouseWheelOps.eq_native.
    rewrite Bool.negb_true_iff, <- Bool.not_true_iff_false.
    tauto.
Qed.

(** X6.  [operator==] on [Result] holds exactly between equal results,
    [operator!=] exactly between different ones, and [to_string] tells
    them apart: it is ["success"] for [success] only and gives different
    texts for different results. *)
Theorem result_comparison_and_printing :
  forall a b : Thread.result,
    (ResultOps.eq a b = true <-> a = b)
    /\ (ResultOps.ne a b = true <-> a <> b)
    /\ (ResultOps.to_string a = "success"%string <-> a = Thread.success)
    /\ (ResultOps.to_string a = "failure"%string <-> a = Thread.failure)
    /\ (ResultOps.to_string a = ResultOps.to_string b <-> a = b).
Proof.
  intros [[|]] [[|]];
    unfold ResultOps.eq, ResultOps.ne, ResultOps.to_string,
      Thread.success, Thread.failure; simpl;
    repeat split; intros; try reflexivity; try discriminate;
    try congruence.
Qed.

End EnumOperatorFacts.

Lemma thread_priority_operators_decide_equality_witness :
  NoDup [@SDL_THREAD_PRIORITY_LOW SDL2_header;
         @SDL_THREAD_PRIORITY_NORMAL SDL2_header;
         @SDL_THREAD_PRIORITY_HIGH SDL2_header;
         @SDL_THREAD_PRIORITY_TIME_CRITICAL SDL2_header]
  /\ @Thread.priority_eq SDL2_header Thread.high 2 = true
  /\ @ThreadPriorityOps.ne SDL2_header Thread.high 3 = true.
Proof.
  assert (Hnd : NoDup [@SDL_THREAD_PRIORITY_LOW SDL2_header;
                       @SDL_THREAD_PRIORITY_NORMAL SDL2_header;
                       @SDL_THREAD_PRIORITY_HIGH SDL2_header;
                       @SDL_THREAD_PRIORITY_TIME_CRITICAL SDL2_header]).
  { simpl. repeat constructor; simpl; intuition discriminate. }
  split; [exact Hnd |].
  destruct (@thread_priority_operators_decide_equality SDL2_header Hnd
              Thread.high Thread.high) as (Heq & _).
  destruct (@thread_priority_operators_decide_equality SDL2_header Hnd
              Thread.high Thread.critical) as (_ & _ & Hne & _).
  split; [apply Heq; reflexivity | apply Hne; discriminate].
Defined.

Lemma mouse_wheel_direction_printing_and_comparison_witness :
  @SDL_MOUSEWHEEL_NORMAL SDL2_header <> @SDL_MOUSEWHEEL_FLIPPED SDL2_header
  /\ @MouseWheelOps.to_string SDL2_header 1 = inl "flipped"%string
  /\ @MouseWheelOps.to_string SDL2_header 2
     = inr (MouseWheelOps.Cen_error
              "Did not recognize mouse wheel direction!").
Proof.
  assert (Hne : @SDL_MOUSEWHEEL_NORMAL SDL2_header
                <> @SDL_MOUSEWHEEL_FLIPPED SDL2_header)
    by (simpl; discriminate).
  split; [exact Hne |].
  destruct (@mouse_wheel_direction_printing_and_comparison SDL2_header Hne
              MouseWheel.flipped MouseWheel.flipped 2)
    as (Hs & Hthrow & _).
  split; [exact Hs |].
  apply Hthrow. simpl. split; discriminate.
Defined.

(** ** Arguments that reach SDL_mixer *)

Section MusicRangeFacts.
Context {L : Type} `{Library L} `{NativeHeader}.

(** X7.  Whatever [int]s the caller passes, [play], [fade_in],
    [fade_out] and [set_volume] never hand SDL_mixer a loop count below
    [-1], a negative duration, or a volume outside
    [0 .. MIX_MAX_VOLUME]. *)
Theorem music_never_passes_out_of_range_arguments :
  0 <= MIX_MAX_VOLUME ->
  forall (l : L) (self : Music.music) (ms nLoops volume : Z),
    forallb MusicRanges.argument_in_range
      (calls_of (Music.play self nLoops l)
       ++ calls_of (Music.fade_in self ms nLoops l)
       ++ calls_of (Music.fade_out ms l)
       ++ calls_of (Music.set_volume volume l))
    = true.
Proof.
  intros Hmax l self ms nLoops volume.
  rewrite play_run, fade_in_run, fade_out_run, set_volume_run.
  pose proof (clamp_bounds volume 0 MIX_MAX_VOLUME Hmax) as [Hlo Hhi].
  assert (Hl : (-1 <=? Z.max nLoops (-1)) = true) by (apply Z.leb_le; lia).
  assert (Hm : (0 <=? Z.max ms 0) = true) by (apply Z.leb_le; lia).
  apply Z.leb_le in Hlo. apply Z.leb_le in Hhi.
  destruct ((returned Mix_FadingMusic l =? MIX_FADING_IN)
            || (returned Mix_FadingMusic l =? MIX_FADING_OUT))%bool;
    unfold calls_of; simpl; rewrite Hl, Hm, Hlo, Hhi; reflexivity.
Qed.

End MusicRangeFacts.

Lemma music_never_passes_out_of_range_arguments_witness :
  0 <= @MIX_MAX_VOLUME SDL2_header
  /\ forallb (@MusicRanges.argument_in_range SDL2_header)
       (calls_of (@Music.fade_in _ table_library {| Music.m_music := 4096 |}
                    (-3) (-9) working_table)
        ++ calls_of (@Music.set_volume _ table_library SDL2_header 999
                       working_table))
     = true.
Proof.
  assert (Hmax : 0 <= @MIX_MAX_VOLUME SDL2_header) by (simpl; lia).
  split; [exact Hmax |].
  pose proof (@music_never_passes_out_of_range_arguments
                _ table_library SDL2_header Hmax working_table
                {| Music.m_music := 4096 |} (-3) (-9) 999) as Hall.
  rewrite !forallb_app in Hall. rewrite forallb_app.
  apply Bool.andb_true_iff in Hall. destruct Hall as (_ & Hall).
  apply Bool.andb_true_iff in Hall. destruct Hall as (Hf & Hall).
  apply Bool.andb_true_iff in Hall. destruct Hall as (_ & Hv).
  rewrite Hf, Hv. reflexivity.
Defined.

(** ** Haptic devices *)

Section HapticFacts.
Context {L : Type} `{Library L} `{NativeHeader}.

Lemma from_mouse_run (l : L) :
  Haptic.from_mouse l =
  (if is_null (returned SDL_HapticOpenFromMouse l)
   then Throw sdl_error
   else Ret {| Haptic.m_haptic := returned SDL_HapticOpenFromMouse l |},
   snd (sdl SDL_HapticOpenFromMouse l),
   [SDL_HapticOpenFromMouse]).
Proof.
  unfold Haptic.from_mouse, Haptic.from_pointer. run_wrapper.
  destruct (is_null (returned SDL_HapticOpenFromMouse l)); reflexivity.
Qed.

(** X8.  Wrapping an existing [SDL_Haptic*] never touches the library.
    The owning class rejects exactly the null pointer, with the exception
    ["Null haptic pointer!"]; the handle class accepts every pointer,
    null included. *)
Theorem haptic_from_pointer_rejects_null_only_when_owning :
  forall (p : ptr) (l : L),
    Haptic.from_pointer false p l = (Ret {| Haptic.m_haptic := p |}, l, [])
    /\ calls_of (Haptic.from_pointer true p l) = []
    /\ state_of (Haptic.from_pointer true p l) = l
    /\ (result_of (Haptic.from_pointer true p l)
        = Throw (exception "Null haptic pointer!") <-> p = nullptr)
    /\ (result_of (Haptic.from_pointer true p l)
        = Ret {| Haptic.m_haptic := p |} <-> p <> nullptr).
Proof.
  intros p l. unfold Haptic.from_pointer.
  split; [reflexivity |].
  destruct (is_null p) eqn:Hn; unfold calls_of, state_of, result_of; simpl.
  - apply is_null_spec in Hn.
    repeat split; intros; try reflexivity; try discriminate; congruence.
  - assert (p <> nullptr)
      by (intro N; apply is_null_spec in N; congruence).
    repeat split; intros; try reflexivity; try discriminate; tauto.
Qed.

(** X9.  [from_mouse()] makes the one call [SDL_HapticOpenFromMouse]; it
    throws [sdl_error] exactly when that returns null and otherwise holds
    the returned handle.  The null check of the pointer constructor it
    goes through never fires. *)
Theorem haptic_from_mouse_throws_sdl_error_only :
  forall l : L,
    calls_of (Haptic.from_mouse l) = [SDL_HapticOpenFromMouse]
    /\ (result_of (Haptic.from_mouse l) = Throw sdl_error
        <-> returned SDL_HapticOpenFromMouse l = nullptr)
    /\ (result_of (Haptic.from_mouse l)
        = Ret {| Haptic.m_haptic := returned SDL_HapticOpenFromMouse l |}
        <-> returned SDL_HapticOpenFromMouse l <> nullptr)
    /\ (forall what : string,
           result_of (Haptic.from_mouse l) <> Throw (exception what)).
Proof.
  intros l. rewrite from_mouse_run. unfold calls_of, result_of; simpl.
  destruct (is_null (returned SDL_HapticOpenFromMouse l)) eqn:Hn.
  - apply is_null_spec in Hn.
    repeat split; intros; try reflexivity; try discriminate; congruence.
  - assert (returned SDL_HapticOpenFromMouse l <> nullptr)
      by (intro N; apply is_null_spec in N; congruence).
    repeat split; intros; try reflexivity; try discriminate; tauto.
Qed.

(** X10.  When every feature flag fits in an [unsigned], asking
    [has_feature] for an enumerator is the same computation as calling the
    member [has_feature_<name>()] of that name: same answer, same native
    call, same library state. *)
Theorem haptic_has_feature_agrees_with_named_queries :
  (forall f : Haptic.haptic_feature,
      0 <= Haptic.to_underlying f < 2 ^ 32) ->
  forall (h : Haptic.basic_haptic) (f : Haptic.haptic_feature) (l : L),
    Haptic.has_feature h f l = HapticFeatures.named_query f h l.
Proof.
  intros Hfits h f l.
  rewrite has_feature_by_enum by apply Hfits.
  destruct f; reflexivity.
Qed.

Lemma land_single_bit (k q : Z) :
  0 <= k -> int_to_bool (Z.land (Z.shiftl 1 k) q) = Z.testbit q k.
Proof.
  intros Hk. rewrite Z.shiftl_1_l. unfold int_to_bool.
  destruct (Z.testbit q k) eqn:Hbit.
  - destruct (Z.eqb_spec (Z.land (2 ^ k) q) 0) as [Hz |]; [| reflexivity].
    assert (Hc : Z.testbit (Z.land (2 ^ k) q) k = true).
    { rewrite Z.land_spec, Z.pow2_bits_true, Hbit by exact Hk. reflexivity. }
    rewrite Hz, Z.bits_0 in Hc. discriminate.
  - assert (Hz : Z.land (2 ^ k) q = 0).
    { apply Z.bits_inj'. intros n Hn.
      rewrite Z.land_spec, Z.bits_0, Z.pow2_bits_eqb by exact Hk.
      destruct (Z.eqb_spec k n) as [-> |]; simpl; [exact Hbit | reflexivity]. }
    rewrite Hz. reflexivity.
Qed.

Lemma has_feature_flag_run (h : Haptic.basic_haptic) (flag : Z) (l : L) :
  Haptic.has_feature_flag h flag l =
  (Ret (int_to_bool
          (Z.land flag (returned (SDL_HapticQuery (Haptic.m_haptic h)) l))),
   snd (sdl (SDL_HapticQuery (Haptic.m_haptic h)) l),
   [SDL_HapticQuery (Haptic.m_haptic h)]).
Proof. unfold Haptic.has_feature_flag. run_wrapper. reflexivity. Qed.

(** X11.  The feature test reads bits of the mask that
    [SDL_HapticQuery] returns: for the flag [1 << k] the answer is bit [k]
    of the mask; for a flag made of several bits it is [true] as soon as
    one of them is set in the mask, not only when all are; for the empty
    flag it is [false]. *)
Theorem haptic_feature_test_reads_mask_bits :
  forall (h : Haptic.basic_haptic) (k a b : Z) (l : L),
    0 <= k ->
    result_of (Haptic.has_feature_flag h (Z.shiftl 1 k) l)
    = Ret (Z.testbit (returned (SDL_HapticQuery (Haptic.m_haptic h)) l) k)
    /\ (exists x y : bool,
           result_of (Haptic.has_feature_flag h a l) = Ret x
           /\ result_of (Haptic.has_feature_flag h b l) = Ret y
           /\ result_of (Haptic.has_feature_flag h (Z.lor a b) l)
              = Ret (x || y)%bool)
    /\ result_of (Haptic.has_feature_flag h 0 l) = Ret false.
Proof.
  intros h k a b l Hk. rewrite !has_feature_flag_run.
  unfold result_of; simpl fst.
  split; [rewrite land_single_bit by exact Hk; reflexivity |].
  split; [| reflexivity].
  set (q := returned (SDL_HapticQuery (Haptic.m_haptic h)) l).
  exists (int_to_bool (Z.land a q)), (int_to_bool (Z.land b q)).
  split; [reflexivity |]. split; [reflexivity |].
  f_equal. unfold int_to_bool. rewrite Z.land_lor_distr_l.
  destruct (Z.eqb_spec (Z.land a q) 0) as [Ha | Ha];
    destruct (Z.eqb_spec (Z.land b q) 0) as [Hb | Hb];
    destruct (Z.eqb_spec (Z.lor (Z.land a q) (Z.land b q)) 0) as [Hab | Hab];
    try reflexivity; exfalso.
  - apply Hab. apply Z.lor_eq_0_iff. tauto.
  - apply Z.lor_eq_0_iff in Hab. tauto.
  - apply Z.lor_eq_0_iff in Hab. tauto.
  - apply Z.lor_eq_0_iff in Hab. tauto.
Qed.

(** X12.  [index()], [effect_capacity()] and [concurrent_capacity()]
    return [std::nullopt] exactly when their native call returns [-1] and
    the returned number otherwise, so an engaged optional never holds
    [-1]; [init_rumble()] and [stop_rumble()] return [true] exactly when
    their native call returns [0].  None of them throws. *)
Theorem haptic_queries_translate_native_status :
  forall (h : Haptic.basic_haptic) (l : L),
    let p := Haptic.m_haptic h in
    (result_of (Haptic.effect_capacity h l) = Ret None
     <-> returned (SDL_HapticNumEffects p) l = -1)
    /\ (result_of (Haptic.concurrent_capacity h l) = Ret None
        <-> returned (SDL_HapticNumEffectsPlaying p) l = -1)
    /\ (forall n : Z,
           result_of (Haptic.effect_capacity h l) = Ret (Some n) <->
           n = returned (SDL_HapticNumEffects p) l /\ n <> -1)
    /\ (forall n : Z,
           result_of (Haptic.concurrent_capacity h l) = Ret (Some n) <->
           n = returned (SDL_HapticNumEffectsPlaying p) l /\ n <> -1)
    /\ (forall n : Z,
           result_of (Haptic.index h l) = Ret (Some n) <->
           n = returned (SDL_HapticIndex p) l /\ n <> -1)
    /\ (result_of (Haptic.init_rumble h l) = Ret true
        <-> returned (SDL_HapticRumbleInit p) l = 0)
    /\ (result_of (Haptic.stop_rumble h l) = Ret true
        <-> returned (SDL_HapticRumbleStop p) l = 0).
Proof.
  intros h l p.
  unfold Haptic.effect_capacity, Haptic.concurrent_capacity, Haptic.index,
    Haptic.init_rumble, Haptic.stop_rumble.
  fold p. run_wrapper.
  set (a := returned (SDL_HapticNumEffects p) l).
  set (b := returned (SDL_HapticNumEffectsPlaying p) l).
  set (c := returned (SDL_HapticIndex p) l).
  set (d := returned (SDL_HapticRumbleInit p) l).
  set (e := returned (SDL_HapticRumbleStop p) l).
  destruct (Z.eqb_spec a (-1)), (Z.eqb_spec b (-1)), (Z.eqb_spec c (-1)),
    (Z.eqb_spec d 0), (Z.eqb_spec e 0); simpl;
    repeat split; intros; try reflexivity; try discriminate;
    repeat match goal with
           | Hx : _ /\ _ |- _ => destruct Hx
           | Hx : Ret _ = Ret _ |- _ => injection Hx as Hx
           end;
    subst; try congruence; try tauto.
Qed.

End HapticFacts.

Lemma haptic_has_feature_agrees_with_named_queries_witness :
  (forall f : Haptic.haptic_feature,
      0 <= @Haptic.to_underlying SDL2_header f < 2 ^ 32)
  /\ @Haptic.has_feature _ table_library SDL2_header
       {| Haptic.m_haptic := 4096 |} Haptic.sine (fun _ => 6)
     = (Ret true, (fun _ => 6), [SDL_HapticQuery 4096]).
Proof.
  assert (Hfits : forall f : Haptic.haptic_feature,
             0 <= @Haptic.to_underlying SDL2_header f < 2 ^ 32)
    by (intros f; destruct f; vm_compute; split; congruence).
  split; [exact Hfits |].
  rewrite (@haptic_has_feature_agrees_with_named_queries
             _ table_library SDL2_header Hfits).
  reflexivity.
Defined.

Lemma haptic_feature_test_reads_mask_bits_witness :
  0 <= 2
  /\ result_of (@Haptic.has_feature_flag _ table_library
                  {| Haptic.m_haptic := 4096 |} (Z.shiftl 1 2) (fun _ => 6))
     = Ret true.
Proof.
  assert (Hk : 0 <= 2) by lia.
  split; [exact Hk |].
  rewrite (proj1 (@haptic_feature_test_reads_mask_bits _ table_library
                    {| Haptic.m_haptic := 4096 |} 2 0 0 (fun _ => 6) Hk)).
  reflexivity.
Defined.

(** ** Events as records of fields *)

Section EventAlgebra.
Import EventSetters.

Lemma to_u8_idem (v : Z) : to_u8 (to_u8 v) = to_u8 v.
Proof. apply to_u8_small. apply to_u8_range. Qed.

Lemma to_u8_fixed_iff (v : Z) : to_u8 v = v <-> 0 <= v < 256.
Proof.
  split.
  - intros <-. apply to_u8_range.
  - apply to_u8_small.
Qed.

(** X13.  Setters of [MouseButtonEvent] behave as independent
    assignments: of two calls to the same setter only the last one counts,
    and calls to two different setters can be made in either order. *)
Theorem mouse_button_event_setters_are_independent :
  forall (s s' : setter) (e : Event.MouseButtonEvent) (a b : Z),
    call_setter s (call_setter s e a) b = call_setter s e b
    /\ (s <> s' ->
        call_setter s (call_setter s' e a) b
        = call_setter s' (call_setter s e b) a).
Proof.
  intros s s' e a b. split.
  - destruct s; reflexivity.
  - intros Hne. destruct s, s'; try reflexivity; congruence.
Qed.

(** X14.  Writing back what a getter of [MouseButtonEvent] returned
    leaves an event with well-typed fields as it was; and after any
    [set_button] or [set_state] the stored byte is stable: reading it and
    writing it again changes nothing, whatever enum value was given. *)
Theorem mouse_button_event_write_back_is_identity :
  forall (s : setter) (e : Event.MouseButtonEvent) (v : Z),
    EventRanges.well_typed (Event.m_event e) ->
    call_setter s e (call_getter s e) = e
    /\ call_setter s (call_setter s e v) (call_getter s (call_setter s e v))
       = call_setter s e v.
Proof.
  intros s [[ty ts wid wh bt st cl pd ex ey]] v Hwt.
  destruct Hwt as (_ & _ & _ & _ & Hb & Hs & _). simpl in Hb, Hs.
  destruct s; unfold call_setter, call_getter; simpl;
    unfold Event.set_button, Event.set_state, Event.button, Event.state;
    simpl; rewrite ?to_u8_idem, ?(to_u8_small bt Hb), ?(to_u8_small st Hs);
    split; reflexivity.
Qed.

(** X15.  Setters keep the fields of the wrapped struct within their
    declared types when the argument is a value of the parameter type;
    [set_button] and [set_state] do so for every enum value, because they
    store only its low byte. *)
Theorem mouse_button_event_setters_keep_fields_typed :
  forall (s : setter) (e : Event.MouseButtonEvent) (v : Z),
    EventRanges.well_typed (Event.m_event e) ->
    argument_fits s v ->
    EventRanges.well_typed (Event.m_event (call_setter s e v)).
Proof.
  intros s e v Hwt Hv.
  destruct Hwt as (H1 & H2 & H3 & H4 & H5 & H6 & H7 & H8 & H9 & H10).
  destruct s; simpl in Hv |- *; unfold EventRanges.well_typed; simpl;
    repeat split;
    try (apply H1 || apply H2 || apply H3 || apply H4 || apply H5
         || apply H6 || apply H7 || apply H8 || apply H9 || apply H10);
    try apply Hv;
    try (pose proof (to_u8_range v) as Hr; unfold EventRanges.fits_u8; lia).
Qed.

(** X16.  Each setter of [ControllerButtonEvent] writes the one matching
    field of the wrapped [SDL_ControllerButtonEvent] and the matching
    getter reads it back: [set_which] stores the joystick id as it is,
    [set_button] and [set_state] store the low byte of the enum value; the
    other fields keep their values. *)
Theorem controller_button_event_setters_mirror_fields :
  forall (e : ControllerEvent.ControllerButtonEvent) (v : Z),
    let n := ControllerEvent.m_event in
    (ControllerEvent.which (ControllerEvent.set_which e v) = v
     /\ ControllerEvent.button (ControllerEvent.set_which e v)
        = ControllerEvent.button e
     /\ ControllerEvent.state (ControllerEvent.set_which e v)
        = ControllerEvent.state e)
    /\ (ControllerEvent.button (ControllerEvent.set_button e v) = to_u8 v
        /\ ControllerEvent.which (ControllerEvent.set_button e v)
           = ControllerEvent.which e
        /\ ControllerEvent.state (ControllerEvent.set_button e v)
           = ControllerEvent.state e)
    /\ (ControllerEvent.state (ControllerEvent.set_state e v) = to_u8 v
        /\ ControllerEvent.which (ControllerEvent.set_state e v)
           = ControllerEvent.which e
        /\ ControllerEvent.button (ControllerEvent.set_state e v)
           = ControllerEvent.button e)
    /\ (forall set : ControllerEvent.ControllerButtonEvent -> Z ->
                     ControllerEvent.ControllerButtonEvent,
           In set [ControllerEvent.set_which; ControllerEvent.set_button;
                   ControllerEvent.set_state] ->
           SDL_ControllerButtonEvent.type (n (set e v))
           = SDL_ControllerButtonEvent.type (n e)
           /\ SDL_ControllerButtonEvent.timestamp (n (set e v))
              = SDL_ControllerButtonEvent.timestamp (n e)
           /\ SDL_ControllerButtonEvent.padding1 (n (set e v))
              = SDL_ControllerButtonEvent.padding1 (n e)
           /\ SDL_ControllerButtonEvent.padding2 (n (set e v))
              = SDL_ControllerButtonEvent.padding2 (n e)).
Proof.
  intros e v n.
  repeat match goal with
         | |- _ /\ _ => split
         end; try reflexivity.
  intros set [<- | [<- | [<- | []]]]; repeat split; reflexivity.
Qed.

(** X17.  An enum value survives [set_button] followed by [button()]
    exactly when it lies in [0 .. 255], on [ControllerButtonEvent] and on
    [MouseButtonEvent] alike; a negative enumerator such as [-1] is read
    back as [255]. *)
Theorem event_button_round_trip_needs_a_byte :
  forall (c : ControllerEvent.ControllerButtonEvent)
         (m : Event.MouseButtonEvent) (v : Z),
    (ControllerEvent.button (ControllerEvent.set_button c v) = v
     <-> 0 <= v < 256)
    /\ (ControllerEvent.state (ControllerEvent.set_state c v) = v
        <-> 0 <= v < 256)
    /\ (Event.button (Event.set_button m v) = v <-> 0 <= v < 256)
    /\ (Event.state (Event.set_state m v) = v <-> 0 <= v < 256)
    /\ ControllerEvent.button (ControllerEvent.set_button c (-1)) = 255.
Proof.
  intros c m v.
  split; [exact (to_u8_fixed_iff v) |].
  split; [exact (to_u8_fixed_iff v) |].
  split; [exact (to_u8_fixed_iff v) |].
  split; [exact (to_u8_fixed_iff v) | reflexivity].
Qed.

End EventAlgebra.

Lemma mouse_button_event_setters_are_independent_witness :
  let e := Event.from_native
             {| SDL_MouseButtonEvent.type := 1025;
                SDL_MouseButtonEvent.timestamp := 77;
                SDL_MouseButtonEvent.windowID := 75;
                SDL_MouseButtonEvent.which := 23;
                SDL_MouseButtonEvent.button := 4;
                SDL_MouseButtonEvent.state := 1;
                SDL_MouseButtonEvent.clicks := 2;
                SDL_MouseButtonEvent.padding1 := 0;
                SDL_MouseButtonEvent.x := 10;
                SDL_MouseButtonEvent.y := 20 |} in
  EventSetters.SetX <> EventSetters.SetButton
  /\ Event.set_x (Event.set_button e 3) 645
     = Event.set_button (Event.set_x e 645) 3.
Proof.
  intros e.
  assert (Hne : EventSetters.SetX <> EventSetters.SetButton)
    by discriminate.
  split; [exact Hne |].
  exact (proj2 (mouse_button_event_setters_are_independent
                  EventSetters.SetX EventSetters.SetButton e 3 645) Hne).
Defined.

Lemma mouse_button_event_write_back_is_identity_witness :
  let n := {| SDL_MouseButtonEvent.type := 1025;
              SDL_MouseButtonEvent.timestamp := 77;
              SDL_MouseButtonEvent.windowID := 75;
              SDL_MouseButtonEvent.which := 23;
              SDL_MouseButtonEvent.button := 4;
              SDL_MouseButtonEvent.state := 1;
              SDL_MouseButtonEvent.clicks := 2;
              SDL_MouseButtonEvent.padding1 := 0;
              SDL_MouseButtonEvent.x := -10;
              SDL_MouseButtonEvent.y := 20 |} in
  EventRanges.well_typed n
  /\ Event.set_button (Event.from_native n)
       (Event.button (Event.from_native n))
     = Event.from_native n.
Proof.
  intros n.
  assert (Hwt : EventRanges.well_typed n)
    by (unfold EventRanges.well_typed, EventRanges.fits_u32,
          EventRanges.fits_u8, EventRanges.fits_i32; simpl; lia).
  split; [exact Hwt |].
  exact (proj1 (mouse_button_event_write_back_is_identity
                  EventSetters.SetButton (Event.from_native n) 0 Hwt)).
Defined.

Lemma mouse_button_event_setters_keep_fields_typed_witness :
  let n := {| SDL_MouseButtonEvent.type := 1025;
              SDL_MouseButtonEvent.timestamp := 77;
              SDL_MouseButtonEvent.windowID := 75;
              SDL_MouseButtonEvent.which := 23;
              SDL_MouseButtonEvent.button := 4;
              SDL_MouseButtonEvent.state := 1;
              SDL_MouseButtonEvent.clicks := 2;
              SDL_MouseButtonEvent.padding1 := 0;
              SDL_MouseButtonEvent.x := -10;
              SDL_MouseButtonEvent.y := 20 |} in
  EventRanges.well_typed n
  /\ EventSetters.argument_fits EventSetters.SetButton (-1)
  /\ EventRanges.well_typed
       (Event.m_event (Event.set_button (Event.from_native n) (-1))).
Proof.
  intros n.
  assert (Hwt : EventRanges.well_typed n)
    by (unfold EventRanges.well_typed, EventRanges.fits_u32,
          EventRanges.fits_u8, EventRanges.fits_i32; simpl; lia).
  split; [exact Hwt |]. split; [exact I |].
  exact (mouse_button_event_setters_keep_fields_typed
           EventSetters.SetButton (Event.from_native n) (-1) Hwt I).
Defined.

(** ** The index of a type in a tuple *)

Section TupleTypeIndexFacts.
Import TupleTypeIndex.
Context {T : Type} (is_same : T -> T -> bool).
Hypothesis is_same_spec : forall a b : T, is_same a b = true <-> a = b.

Lemma weight_app (target : T) (xs ys : list T) :
  forall index : Z,
    weight is_same target index (xs ++ ys)
    = weight is_same target index xs
      + weight is_same target (index + Z.of_nat (List.length xs)) ys.
Proof.
  induction xs as [| x xs IH]; intros index.
  - simpl. rewrite Z.add_0_r. reflexivity.
  - cbn [app weight List.length]. rewrite IH.
    replace (index + 1 + Z.of_nat (List.length xs))
      with (index + Z.of_nat (S (List.length xs))) by lia.
    lia.
Qed.

Lemma weight_nonneg (target : T) (ts : list T) :
  forall index : Z, 0 <= index -> 0 <= weight is_same target index ts.
Proof.
  induction ts as [| t ts IH]; intros index Hi; simpl.
  - lia.
  - specialize (IH (index + 1) ltac:(lia)).
    destruct (is_same target t); lia.
Qed.

Lemma weight_bound (target : T) (ts : list T) :
  forall index : Z,
    0 <= index ->
    2 * weight is_same target index ts
    <= Z.of_nat (List.length ts)
       * (2 * index + Z.of_nat (List.length ts) + 1).
Proof.
  induction ts as [| t ts IH]; intros index Hi.
  - simpl. lia.
  - cbn [weight List.length]. specialize (IH (index + 1) ltac:(lia)).
    rewrite Nat2Z.inj_succ.
    set (n := Z.of_nat (List.length ts)) in *.
    assert (0 <= n) by (subst n; lia).
    destruct (is_same target t); nia.
Qed.

Lemma weight_absent (target : T) (ts : list T) :
  forall index : Z,
    ~ In target ts -> weight is_same target index ts = 0.
Proof.
  induction ts as [| t ts IH]; intros index Hn; simpl.
  - reflexivity.
  - destruct (is_same target t) eqn:Hs.
    + apply is_same_spec in Hs. subst t. exfalso. apply Hn. left. reflexivity.
    + rewrite IH; [reflexivity |]. intros Hin. apply Hn. right. exact Hin.
Qed.

Lemma weight_present (target : T) (ts : list T) :
  forall index : Z,
    0 <= index -> In target ts -> 0 < weight is_same target index ts.
Proof.
  induction ts as [| t ts IH]; intros index Hi Hin; simpl.
  - destruct Hin.
  - pose proof (weight_nonneg target ts (index + 1) ltac:(lia)) as Hnn.
    destruct (is_same target t) eqn:Hs; [lia |].
    destruct Hin as [-> | Hin].
    + assert (is_same target target = true) by (apply is_same_spec; reflexivity).
      congruence.
    + specialize (IH (index + 1) ltac:(lia) Hin). lia.
Qed.

(** Below [2^32] elements no [std::size_t] addition of the fold wraps. *)
Lemma fold_is_weight (target : T) (ts : list T) :
  forall (t : T) (index : Z),
    0 <= index ->
    index + Z.of_nat (List.length (t :: ts)) < 2 ^ 32 ->
    fold is_same target index t ts = weight is_same target index (t :: ts).
Proof.
  induction ts as [| t' ts IH]; intros t index Hi Hlen.
  - cbn [fold weight]. unfold operand, to_size_t.
    cbn [List.length] in Hlen.
    rewrite Z.mod_small by lia. lia.
  - cbn [fold]. rewrite IH; [| lia |].
    + cbn [weight]. unfold operand, to_size_t.
      pose proof (weight_bound target (t' :: ts) (index + 1) ltac:(lia))
        as Hb.
      pose proof (weight_nonneg target (t' :: ts) (index + 1) ltac:(lia))
        as Hnn.
      cbn [weight] in Hb, Hnn.
      cbn [List.length] in Hlen, Hb.
      rewrite !Nat2Z.inj_succ in Hlen. rewrite Nat2Z.inj_succ in Hb.
      set (n := Z.of_nat (List.length ts)) in *.
      assert (0 <= n) by (subst n; lia).
      rewrite (Z.mod_small (index + 1)) by lia.
      rewrite Z.mod_small; [reflexivity |].
      destruct (is_same target t); split; try lia; nia.
    + cbn [List.length] in Hlen |- *.
      rewrite !Nat2Z.inj_succ in Hlen. rewrite Nat2Z.inj_succ. lia.
Qed.

Lemma returned_int (w : Z) :
  0 <= w <= 2 ^ 31 ->
  to_int (to_size_t (to_size_t (-1) + w)) = w - 1.
Proof.
  intros Hw. unfold to_int, to_size_t.
  change ((-1) mod 2 ^ 64) with (2 ^ 64 - 1).
  destruct (Z.eq_dec w 0) as [-> | Hpos].
  - reflexivity.
  - replace (2 ^ 64 - 1 + w) with (w - 1 + 1 * 2 ^ 64) by lia.
    rewrite Z.mod_add by lia.
    rewrite (Z.mod_small (w - 1) (2 ^ 64)) by lia.
    rewrite (Z.mod_small (w - 1) (2 ^ 32)) by lia.
    destruct (Z.ltb_spec (w - 1) (2 ^ 31)); lia.
Qed.

(** For a tuple of fewer than [2^16] types no unsigned or signed
    wrap-around takes part in [tuple_type_index]: its value is the sum,
    over the positions where the target type stands, of the position plus
    one, less one. *)
Lemma value_is_weight :
  forall (target : T) (ts : list T),
    ts <> [] ->
    Z.of_nat (List.length ts) < 2 ^ 16 ->
    value is_same target ts = Some (weight is_same target 0 ts - 1).
Proof.
  intros target [| t ts] Hne Hlen; [congruence |].
  unfold value. rewrite fold_is_weight by lia.
  rewrite returned_int; [reflexivity |].
  pose proof (weight_bound target (t :: ts) 0 ltac:(lia)) as Hb.
  pose proof (weight_nonneg target (t :: ts) 0 ltac:(lia)) as Hnn.
  set (n := Z.of_nat (List.length (t :: ts))) in *.
  split; [lia | nia].
Qed.

(** X18.  The index is [-1] exactly when the target type is not an
    element of the tuple. *)
Theorem tuple_type_index_is_minus_one_iff_absent :
  forall (target : T) (ts : list T),
    ts <> [] ->
    Z.of_nat (List.length ts) < 2 ^ 16 ->
    (value is_same target ts = Some (-1) <-> ~ In target ts).
Proof.
  intros target ts Hne Hlen.
  rewrite value_is_weight by assumption.
  split.
  - intros Hv Hin. injection Hv as Hv.
    pose proof (weight_present target ts 0 ltac:(lia) Hin). lia.
  - intros Hn. rewrite weight_absent by exact Hn. reflexivity.
Qed.

(** X19.  When the target type stands at exactly one position of the
    tuple, the index is that position, counted from zero. *)
Theorem tuple_type_index_of_unique_type :
  forall (target : T) (before after : list T),
    ~ In target before ->
    ~ In target after ->
    Z.of_nat (List.length (before ++ target :: after)) < 2 ^ 16 ->
    value is_same target (before ++ target :: after)
    = Some (Z.of_nat (List.length before)).
Proof.
  intros target before after Hb Ha Hlen.
  rewrite value_is_weight;
    [| destruct before; discriminate | exact Hlen].
  rewrite weight_app. cbn [weight].
  rewrite (weight_absent target before) by exact Hb.
  rewrite (weight_absent target after) by exact Ha.
  assert (Hs : is_same target target = true)
    by (apply is_same_spec; reflexivity).
  rewrite Hs. f_equal. lia.
Qed.

(** X20.  When the target type stands at two positions or more, the
    index is not the position of any occurrence: it is at least the sum
    of two of them plus one, hence greater than both, and can lie past the
    end of the tuple. *)
Theorem tuple_type_index_of_repeated_type :
  forall (target : T) (before between after : list T),
    Z.of_nat (List.length
                (before ++ target :: between ++ target :: after)) < 2 ^ 16 ->
    exists n : Z,
      value is_same target (before ++ target :: between ++ target :: after)
      = Some n
      /\ Z.of_nat (List.length before)
         + (Z.of_nat (List.length before) + 1
            + Z.of_nat (List.length between)) + 1 <= n.
Proof.
  intros target before between after Hlen.
  rewrite value_is_weight;
    [| destruct before; discriminate | exact Hlen].
  eexists. split; [reflexivity |].
  rewrite weight_app. cbn [weight]. rewrite weight_app. cbn [weight].
  assert (Hs : is_same target target = true)
    by (apply is_same_spec; reflexivity).
  rewrite Hs.
  set (i := Z.of_nat (List.length before)).
  set (j := Z.of_nat (List.length between)).
  assert (0 <= i) by (subst i; lia).
  assert (0 <= j) by (subst j; lia).
  pose proof (weight_nonneg target before 0 ltac:(lia)).
  pose proof (weight_nonneg target between (0 + i + 1) ltac:(lia)).
  pose proof (weight_nonneg target after (0 + i + 1 + j + 1) ltac:(lia)).
  lia.
Qed.

End TupleTypeIndexFacts.

Lemma tuple_type_index_is_minus_one_iff_absent_witness :
  (forall a b : nat, Nat.eqb a b = true <-> a = b)
  /\ [1; 2; 3]%nat <> []
  /\ Z.of_nat (List.length [1; 2; 3]%nat) < 2 ^ 16
  /\ TupleTypeIndex.value Nat.eqb 7%nat [1; 2; 3]%nat = Some (-1).
Proof.
  assert (Hne : [1; 2; 3]%nat <> []) by discriminate.
  assert (Hlen : Z.of_nat (List.length [1; 2; 3]%nat) < 2 ^ 16)
    by (simpl; lia).
  split; [exact Nat.eqb_eq |]. split; [exact Hne |]. split; [exact Hlen |].
  apply (tuple_type_index_is_minus_one_iff_absent
           Nat.eqb Nat.eqb_eq 7%nat [1; 2; 3]%nat Hne Hlen).
  simpl. intros [Hx | [Hx | [Hx | []]]]; discriminate.
Defined.

Lemma tuple_type_index_of_unique_type_witness :
  (forall a b : nat, Nat.eqb a b = true <-> a = b)
  /\ ~ In 2%nat [0; 1]%nat
  /\ ~ In 2%nat [3]%nat
  /\ Z.of_nat (List.length ([0; 1] ++ 2 :: [3])%nat) < 2 ^ 16
  /\ TupleTypeIndex.value Nat.eqb 2%nat [0; 1; 2; 3]%nat = Some 2.
Proof.
  assert (Hb : ~ In 2%nat [0; 1]%nat)
    by (simpl; intros [Hx | [Hx | []]]; discriminate).
  assert (Ha : ~ In 2%nat [3]%nat)
    by (simpl; intros [Hx | []]; discriminate).
  assert (Hlen : Z.of_nat (List.length ([0; 1] ++ 2 :: [3])%nat) < 2 ^ 16)
    by (simpl; lia).
  split; [exact Nat.eqb_eq |]. split; [exact Hb |]. split; [exact Ha |].
  split; [exact Hlen |].
  exact (tuple_type_index_of_unique_type
           Nat.eqb Nat.eqb_eq 2%nat [0; 1]%nat [3]%nat Hb Ha Hlen).
Defined.

Lemma tuple_type_index_of_repeated_type_witness :
  (forall a b : nat, Nat.eqb a b = true <-> a = b)
  /\ Z.of_nat (List.length ([] ++ 5 :: [] ++ 5 :: [])%nat) < 2 ^ 16
  /\ exists n : Z,
       TupleTypeIndex.value Nat.eqb 5%nat [5; 5]%nat = Some n
       /\ Z.of_nat (List.length [5; 5]%nat) <= n.
Proof.
  assert (Hlen : Z.of_nat (List.length ([] ++ 5 :: [] ++ 5 :: [])%nat)
                 < 2 ^ 16) by (simpl; lia).
  split; [exact Nat.eqb_eq |]. split; [exact Hlen |].
  destruct (tuple_type_index_of_repeated_type
              Nat.eqb Nat.eqb_eq 5%nat [] [] [] Hlen) as (n & Hv & Hn).
  exists n. split; [exact Hv |]. simpl in Hn |- *. lia.
Defined.

(** ** Exception messages *)

Section ExceptionTextFacts.
Import Exception ExceptionText.

Lemma until_nul_is_nul_free (s : string) : nul_free (until_nul s) = true.
Proof.
  induction s as [| c rest IH]; simpl.
  - reflexivity.
  - destruct (Ascii.eqb c Ascii.zero) eqn:Hc; simpl.
    + reflexivity.
    + rewrite Hc, IH. reflexivity.
Qed.

Lemma until_nul_fixed_iff (s : string) :
  until_nul s = s <-> nul_free s = true.
Proof.
  split.
  - intros <-. apply until_nul_is_nul_free.
  - induction s as [| c rest IH]; simpl; intros Hf.
    + reflexivity.
    + apply Bool.andb_true_iff in Hf. destruct Hf as (Hc & Hrest).
      apply Bool.negb_true_iff in Hc. rewrite Hc, IH by exact Hrest.
      reflexivity.
Qed.

(** X21.  The text that [what()] delivers as a C string is the message
    up to its first NUL byte and never contains one.  For an exception
    built from a [std::string] it is the whole message exactly when the
    message has no NUL byte, and in that case the two constructors build
    the same exception. *)
Theorem exception_text_ends_at_first_nul :
  forall s : string,
    deref (what (ctor_string s)) = Some (until_nul s)
    /\ (exists text : string,
           deref (what (ctor_string s)) = Some text
           /\ nul_free text = true)
    /\ (deref (what (ctor_string s)) = Some s <-> nul_free s = true)
    /\ (ctor (Some s) = Some (ctor_string s) <-> nul_free s = true).
Proof.
  intros s. unfold what, c_str, ctor_string, ctor; simpl.
  split; [reflexivity |].
  split; [exists (until_nul s); split;
          [reflexivity | apply until_nul_is_nul_free] |].
  split.
  - rewrite <- until_nul_fixed_iff. split; intros Hx; congruence.
  - rewrite <- until_nul_fixed_iff. split; intros Hx; congruence.
Qed.

End ExceptionTextFacts.
